(** * faker-file: providers, storages and inner-file composition

    A shallow embedding of the file providers of the package
    ([ico_file], [svg_file], [ods_file], [jpeg_file], [webp_file]) over an
    explicit world: the local disk, the object store behind the cloud-like
    storage, and the random sources.  Third-party converters and the helpers
    the providers import are gathered in an environment record. *)

From Stdlib Require Import Ascii.
From stdpp Require Import gmap strings list fin_maps pretty.

Open Scope string_scope.
Open Scope nat_scope.

#[local] Set Warnings "-register-all".

(** ** The world a provider call runs in *)

Definition bytes := list Byte.byte.

Record World := mkWorld {
  disk : gmap string bytes;      (* local file system: [open], [os.remove] *)
  buckets : gmap string bytes;   (* object store of the cloud-like backend *)
  faker_seed : nat;              (* random state of the Faker generators *)
  tmp_seed : nat                 (* position in tempfile's name sequence *)
}.

Definition set_disk (f : gmap string bytes → gmap string bytes) (w : World) : World :=
  mkWorld (f (disk w)) (buckets w) (faker_seed w) (tmp_seed w).

Definition set_buckets (f : gmap string bytes → gmap string bytes) (w : World) : World :=
  mkWorld (disk w) (f (buckets w)) (faker_seed w) (tmp_seed w).

Definition set_faker_seed (n : nat) (w : World) : World :=
  mkWorld (disk w) (buckets w) n (tmp_seed w).

Definition set_tmp_seed (n : nat) (w : World) : World :=
  mkWorld (disk w) (buckets w) (faker_seed w) n.

(** ** Exceptions and the provider monad

    A raised exception keeps the world it was raised in: nothing is rolled
    back when a call fails. *)

Inductive exn :=
  | NotImplementedError
  | ImportError
  | FileNotFoundError
  | FileExistsError
  | IndexError
  | LibError (msg : string).   (* raised inside a third-party converter *)

Inductive Res (A : Type) :=
  | Ok (a : A) (w : World)
  | Raise (e : exn) (w : World).
Arguments Ok {A} a w.
Arguments Raise {A} e w.

Definition M (A : Type) := World → Res A.

Definition ret {A} (a : A) : M A := λ w, Ok a w.
Definition raise {A} (e : exn) : M A := λ w, Raise e w.
Definition bind {A B} (m : M A) (k : A → M B) : M B :=
  λ w, match m w with
       | Ok a w' => k a w'
       | Raise e w' => Raise e w'
       end.
Definition lift {A} (r : exn + A) : M A :=
  match r with inl e => raise e | inr a => ret a end.

Notation "'let*' x ':=' m 'in' k" := (bind m (λ x, k))
  (at level 10, x name, m at level 100, k at level 200).
Notation "'run' m 'in' k" := (bind m (λ _, k))
  (at level 10, m at level 100, k at level 200).

(** ** Local file operations used by the providers *)

(* open(path, "rb").read() *)
Definition open_rb (path : string) : M bytes :=
  λ w, match disk w !! path with
       | Some b => Ok b w
       | None => Raise FileNotFoundError w
       end.

(* open(path, "wb"): the file is created or truncated *)
Definition open_wb (path : string) : M unit :=
  λ w, Ok tt (set_disk (insert path []) w).

(* fakefile.write(data) on a file opened with "wb" *)
Definition file_write (path : string) (data : bytes) : M unit :=
  λ w, Ok tt (set_disk (insert path data) w).

(* os.remove(path) *)
Definition os_remove (path : string) : M unit :=
  λ w, match disk w !! path with
       | Some _ => Ok tt (set_disk (delete path) w)
       | None => Raise FileNotFoundError w
       end.

(** ** Storage backends

    [BaseStorage] is the interface the providers call; a backend is an
    object with these methods. *)

Record BaseStorage := mkStorage {
  generate_filename : option string → string → M string;
  generate_temporary_local_filename : option string → string → M string;
  write_bytes : string → bytes → M unit;
  relpath : string → string;
  exists_ : string → World → bool
}.

(** ** Returned artifacts *)

Inductive Artifact :=
  | StringValue (path : string) (data : gmap string string)
  | BytesValue (raw : bytes) (data : gmap string string).

Definition artifact_data (a : Artifact) : gmap string string :=
  match a with StringValue _ d => d | BytesValue _ d => d end.

Definition is_StringValue (a : Artifact) : bool :=
  match a with StringValue _ _ => true | BytesValue _ _ => false end.

(** ** Keyword arguments *)

Inductive PyVal :=
  | PyNone
  | PyBool (b : bool)
  | PyInt (n : nat)
  | PyStr (s : string)
  | PyFunc (name : string)
  | PyStorage (s : BaseStorage).

Abbreviation Kwargs := (gmap string PyVal).

Definition opt_str (o : option string) : PyVal :=
  match o with Some s => PyStr s | None => PyNone end.
Definition opt_int (o : option nat) : PyVal :=
  match o with Some n => PyInt n | None => PyNone end.
Definition opt_storage (o : option BaseStorage) : PyVal :=
  match o with Some s => PyStorage s | None => PyNone end.

(** ** The environment of a provider

    Third-party libraries, and the constants and helpers of the package that
    the providers import from [..base], [..constants] and the mixins. *)

Record Env := mkEnv {
  (* tempfile.gettempdir() *)
  gettempdir : string;
  (* imgkit.from_string(html, output_path): the bytes rendered into the
     output file, or the error of the renderer *)
  imgkit_from_string : string → string → exn + bytes;
  (* FAKER.json(data_columns=..., num_rows=...) from a random state *)
  faker_json : list (string * string) → nat → nat → string * nat;
  (* tablib.Dataset: load(content, format="json") and export("ods") *)
  Dataset : Type;
  dataset_load_json : string → exn + Dataset;
  dataset_export_ods : Dataset → exn + bytes;
  (* os.path.relpath(path, start) *)
  os_path_relpath : string → option string → string;
  (* ..base and ..constants *)
  DEFAULT_REL_PATH : string;
  DEFAULT_IMAGE_MAX_NB_CHARS : nat;
  DEFAULT_FORMAT_FUNC : PyVal;
  (* FileMixin._generate_text_content, drawing on the Faker generator *)
  text_content : nat → option nat → option string → nat → (exn + string) * nat;
  (* FileMixin._generate_filename(root_path, rel_path, prefix), for a given
     extension *)
  _generate_filename :
    option string → string → option string → string → M string;
  (* ImageMixin._image_file, called with keyword arguments only *)
  _image_file : string → Kwargs → M Artifact
}.

(** ** Strings as paths *)

Definition join (a b : string) : string := a +:+ "/" +:+ b.

Fixpoint strip_prefix (p s : string) : option string :=
  match p with
  | EmptyString => Some s
  | String a p' =>
      match s with
      | String b s' => if decide (a = b) then strip_prefix p' s' else None
      | EmptyString => None
      end
  end.

Definition relpath_from (root f : string) : string :=
  default f (strip_prefix (root +:+ "/") f).

Definition has_extension (f ext : string) : Prop :=
  ∃ stem, f = stem +:+ "." +:+ ext.

(** ** tempfile *)

Definition TMP_MAX : nat := 100 * 100.

Definition candidate (dir : string) (prefix : option string) (suffix : string)
    (n : nat) : string :=
  join dir (default "tmp" prefix +:+ pretty n +:+ suffix).

Fixpoint first_unused (fuel n : nat) (names : nat → string)
    (d : gmap string bytes) : option nat :=
  match fuel with
  | 0 => None
  | S fuel' =>
      match d !! names n with
      | Some _ => first_unused fuel' (S n) names d
      | None => Some n
      end
  end.

(* tempfile.NamedTemporaryFile(prefix=..., dir=..., suffix=...).name: a name
   unused in [dir]; the file itself is gone once the handle is dropped. *)
Definition NamedTemporaryFile_name (dir : string) (prefix : option string)
    (suffix : string) : M string :=
  λ w, match first_unused TMP_MAX (tmp_seed w) (candidate dir prefix suffix) (disk w) with
       | Some n => Ok (candidate dir prefix suffix n) (set_tmp_seed (S n) w)
       | None => Raise FileExistsError w
       end.

(** ** The two storage backends *)

(** Modelled from the spec: [storages/filesystem.py] is not among the
    sources.  The spec describes a storage backend as "an abstraction for
    where generated bytes are persisted (local disk, cloud-like path)"; this
    backend persists on the local disk, under [root_path/rel_path], and
    reports paths relative to [root_path]. *)
Definition FileSystemStorage (tmpdir root_path rel_path : string) : BaseStorage := {|
  generate_filename prefix ext :=
    NamedTemporaryFile_name (join root_path rel_path) prefix ("." +:+ ext);
  generate_temporary_local_filename prefix ext :=
    NamedTemporaryFile_name tmpdir prefix ("." +:+ ext);
  write_bytes f data := file_write f data;
  relpath f := relpath_from root_path f;
  exists_ f w := bool_decide (is_Some (disk w !! join root_path f))
|}.

(** Modelled from the spec: [storages/cloud.py] is not among the sources.
    The cloud-like backend persists in an object store, under
    [bucket_name/rel_path], and reports paths relative to the bucket. *)
Definition PathyFileSystemStorage (tmpdir bucket_name rel_path : string) : BaseStorage := {|
  generate_filename prefix ext :=
    λ w, Ok (join (join bucket_name rel_path)
               (default "" prefix +:+ pretty (tmp_seed w) +:+ "." +:+ ext))
            (set_tmp_seed (S (tmp_seed w)) w);
  generate_temporary_local_filename prefix ext :=
    NamedTemporaryFile_name tmpdir prefix ("." +:+ ext);
  write_bytes f data := λ w, Ok tt (set_buckets (insert f data) w);
  relpath f := relpath_from bucket_name f;
  exists_ f w := bool_decide (is_Some (buckets w !! join bucket_name f))
|}.

(** ** Providers *)

Section Providers.
Context (E : Env).

(* FileSystemStorage() with its default arguments *)
Definition default_storage : BaseStorage :=
  FileSystemStorage (gettempdir E) (gettempdir E) (DEFAULT_REL_PATH E).

Definition _generate_text_content (max_nb_chars : nat)
    (wrap_chars_after : option nat) (content : option string) : M string :=
  λ w, match text_content E max_nb_chars wrap_chars_after content (faker_seed w) with
       | (inr s, n) => Ok s (set_faker_seed n w)
       | (inl e, n) => Raise e (set_faker_seed n w)
       end.

(* imgkit.from_string(html, output_path, options={"quiet": ""}) *)
Definition imgkit_render (html output_path : string) : M unit :=
  let* data := lift (imgkit_from_string E html output_path) in
  file_write output_path data.

(** *** ico_file.py *)

Definition ico_extension : string := "ico".

Definition ico_file (storage : option BaseStorage) (prefix : option string)
    (max_nb_chars : nat) (wrap_chars_after : option nat)
    (content : option string) (kwargs : Kwargs) : M Artifact :=
  let storage := match storage with None => default_storage | Some s => s end in
  let* filename := generate_filename storage prefix ico_extension in
  let* tmp_filename := generate_temporary_local_filename storage prefix ico_extension in
  let* content := _generate_text_content max_nb_chars wrap_chars_after content in
  run imgkit_render ("<pre>" +:+ content +:+ "</pre>") tmp_filename in
  let* data := open_rb tmp_filename in
  run write_bytes storage filename data in
  run os_remove tmp_filename in
  ret (StringValue (relpath storage filename) {["content" := content]}).

(** *** svg_file.py *)

Definition svg_extension : string := "svg".

Definition svg_file (storage : option BaseStorage) (prefix : option string)
    (max_nb_chars : nat) (wrap_chars_after : option nat)
    (content : option string) (kwargs : Kwargs) : M Artifact :=
  let storage := match storage with None => default_storage | Some s => s end in
  let* filename := generate_filename storage prefix svg_extension in
  let* tmp_filename := generate_temporary_local_filename storage prefix svg_extension in
  let* content := _generate_text_content max_nb_chars wrap_chars_after content in
  run imgkit_render ("<pre>" +:+ content +:+ "</pre>") tmp_filename in
  let* data := open_rb tmp_filename in
  run write_bytes storage filename data in
  run os_remove tmp_filename in
  ret (StringValue (relpath storage filename) {["content" := content]}).

(** *** ods_file.py *)

Definition ods_extension : string := "ods".

Definition default_data_columns : list (string * string) :=
  [("name", "{{name}}"); ("residency", "{{address}}")].

(* FAKER.json on the module-level Faker instance *)
Definition FAKER_json (data_columns : list (string * string)) (num_rows : nat)
    : M string :=
  λ w, let '(s, n) := faker_json E data_columns num_rows (faker_seed w) in
       Ok s (set_faker_seed n w).

(* truth value of [data_columns]: None and the empty dict are falsy *)
Definition truthy (data_columns : option (list (string * string))) : bool :=
  match data_columns with
  | None | Some [] => false
  | Some (_ :: _) => true
  end.

Definition ods_file (root_path : option string) (rel_path : string)
    (prefix : option string) (data_columns : option (list (string * string)))
    (num_rows : nat) (content : option string) (kwargs : Kwargs) : M Artifact :=
  let* file_name := _generate_filename E root_path rel_path prefix ods_extension in
  let* content :=
    match content with
    | None =>
        let data_columns :=
          if truthy data_columns then default [] data_columns
          else default_data_columns in
        FAKER_json data_columns num_rows
    | Some c => ret c
    end in
  let* dataset := lift (dataset_load_json E content) in
  run open_wb file_name in
  let* exported := lift (dataset_export_ods E dataset) in
  run file_write file_name exported in
  ret (StringValue (os_path_relpath E file_name root_path) {["content" := content]}).

(** *** jpeg_file.py and webp_file.py *)

Definition jpeg_extension : string := "jpg".
Definition webp_extension : string := "webp".

Definition jpeg_file (storage : option BaseStorage) (basename prefix : option string)
    (max_nb_chars : nat) (wrap_chars_after : option nat)
    (content : option string) (format_func : PyVal) (raw : bool)
    (kwargs : Kwargs) : M Artifact :=
  _image_file E jpeg_extension
    (<["storage" := opt_storage storage]>
     (<["basename" := opt_str basename]>
     (<["prefix" := opt_str prefix]>
     (<["max_nb_chars" := PyInt max_nb_chars]>
     (<["wrap_chars_after" := opt_int wrap_chars_after]>
     (<["content" := opt_str content]>
     (<["format_func" := format_func]>
     (<["raw" := PyBool raw]> kwargs)))))))).

Definition webp_file (storage : option BaseStorage) (prefix : option string)
    (max_nb_chars : nat) (wrap_chars_after : option nat)
    (content : option string) (kwargs : Kwargs) : M Artifact :=
  _image_file E webp_extension
    (<["storage" := opt_storage storage]>
     (<["prefix" := opt_str prefix]>
     (<["max_nb_chars" := PyInt max_nb_chars]>
     (<["wrap_chars_after" := opt_int wrap_chars_after]>
     (<["content" := opt_str content]> kwargs))))).

(** The body shared, word for word, by [ico_file] and [svg_file]. *)
Definition html_image_file (extension : string) (storage : option BaseStorage)
    (prefix : option string) (max_nb_chars : nat)
    (wrap_chars_after : option nat) (content : option string) : M Artifact :=
  let storage := match storage with None => default_storage | Some s => s end in
  let* filename := generate_filename storage prefix extension in
  let* tmp_filename := generate_temporary_local_filename storage prefix extension in
  let* content := _generate_text_content max_nb_chars wrap_chars_after content in
  run imgkit_render ("<pre>" +:+ content +:+ "</pre>") tmp_filename in
  let* data := open_rb tmp_filename in
  run write_bytes storage filename data in
  run os_remove tmp_filename in
  ret (StringValue (relpath storage filename) {["content" := content]}).

(* the backend a call ends up using *)
Definition chosen (storage : option BaseStorage) : BaseStorage :=
  match storage with None => default_storage | Some s => s end.

End Providers.

(** ** What the providers need from a storage backend

    [stored f w] is where the backend keeps the file named [f]. *)

Record StorageSpec (s : BaseStorage) (stored : string → World → option bytes)
    : Prop := mkStorageSpec {
  sp_name_ext : ∀ prefix ext w f w',
    generate_filename s prefix ext w = Ok f w' →
    has_extension (relpath s f) ext;
  sp_name_frame : ∀ prefix ext w f w',
    generate_filename s prefix ext w = Ok f w' →
    disk w' = disk w ∧ buckets w' = buckets w ∧ faker_seed w' = faker_seed w;
  sp_name_exists : ∀ prefix ext w f w',
    generate_filename s prefix ext w = Ok f w' →
    ∀ w2, exists_ s (relpath s f) w2 = bool_decide (is_Some (stored f w2));
  sp_tmp_fresh : ∀ prefix ext w t w',
    generate_temporary_local_filename s prefix ext w = Ok t w' →
    disk w' = disk w ∧ buckets w' = buckets w ∧ faker_seed w' = faker_seed w
    ∧ disk w !! t = None;
  sp_write_stored : ∀ f d w u w',
    write_bytes s f d w = Ok u w' → stored f w' = Some d;
  sp_write_disk : ∀ f d w u w' p,
    write_bytes s f d w = Ok u w' → p ≠ f → disk w' !! p = disk w !! p;
  sp_stored_local : ∀ f t w,
    t ≠ f → stored f (set_disk (delete t) w) = stored f w
}.

Definition on_disk (f : string) (w : World) : option bytes := disk w !! f.
Definition in_bucket (f : string) (w : World) : option bytes := buckets w !! f.

(** ** Sequences of provider calls *)

Inductive Call :=
  | call_ico_file (storage : option BaseStorage) (prefix : option string)
      (max_nb_chars : nat) (wrap_chars_after : option nat)
      (content : option string) (kwargs : Kwargs)
  | call_svg_file (storage : option BaseStorage) (prefix : option string)
      (max_nb_chars : nat) (wrap_chars_after : option nat)
      (content : option string) (kwargs : Kwargs)
  | call_ods_file (root_path : option string) (rel_path : string)
      (prefix : option string) (data_columns : option (list (string * string)))
      (num_rows : nat) (content : option string) (kwargs : Kwargs).

Definition perform (E : Env) (c : Call) : M Artifact :=
  match c with
  | call_ico_file st p n wr ct kw => ico_file E st p n wr ct kw
  | call_svg_file st p n wr ct kw => svg_file E st p n wr ct kw
  | call_ods_file rt rl p dc nr ct kw => ods_file E rt rl p dc nr ct kw
  end.

Definition world_after {A} (r : Res A) : World :=
  match r with Ok _ w => w | Raise _ w => w end.

(* what the caller of a provider sees: the returned value or the exception *)
Definition observable {A} (r : Res A) : exn + A :=
  match r with Ok a _ => inr a | Raise e _ => inl e end.

(* the world left behind by a sequence of calls *)
Fixpoint perform_all (E : Env) (cs : list Call) (w : World) : World :=
  match cs with
  | [] => w
  | c :: cs' => perform_all E cs' (world_after (perform E c w))
  end.

(* the backend a call writes through; [ods_file] has none *)
Definition call_storage (E : Env) (c : Call) : option BaseStorage :=
  match c with
  | call_ico_file st _ _ _ _ _ | call_svg_file st _ _ _ _ _ => Some (chosen E st)
  | call_ods_file _ _ _ _ _ _ _ => None
  end.

(* "the result of any provider call does not depend on which provider calls
   were made before it" *)
Definition calls_independent (E : Env) : Prop :=
  ∀ (w0 : World) (before1 before2 : list Call) (c : Call),
    observable (perform E c (perform_all E before1 w0))
    = observable (perform E c (perform_all E before2 w0)).

(** ** A small concrete environment

    Stand-ins for the converters, enough to run the providers: the renderer
    returns the bytes of its input, the Faker output is numbered by the
    random state it was drawn from. *)

Definition sample_env : Env := {|
  gettempdir := "/tmp";
  imgkit_from_string html path := inr (String.list_byte_of_string html);
  faker_json cols n seed := ("[" +:+ pretty seed +:+ "]", S seed);
  Dataset := string;
  dataset_load_json c := inr c;
  dataset_export_ods d := inr (String.list_byte_of_string d);
  os_path_relpath f start := relpath_from (default "/tmp" start) f;
  DEFAULT_REL_PATH := "tmp";
  DEFAULT_IMAGE_MAX_NB_CHARS := 2048;
  DEFAULT_FORMAT_FUNC := PyFunc "DEFAULT_FORMAT_FUNC";
  text_content n wrap content seed :=
    (inr (default ("text" +:+ pretty seed) content), S seed);
  _generate_filename root rel prefix ext :=
    NamedTemporaryFile_name (join (default "/tmp" root) rel) prefix ("." +:+ ext);
  _image_file ext kw :=
    match kw !! "raw" with
    | Some (PyBool true) => ret (BytesValue (String.list_byte_of_string ext) ∅)
    | _ => ret (StringValue ("tmp/image." +:+ ext) ∅)
    end
|}.

Definition empty_world : World := mkWorld ∅ ∅ 0 0.


(* the columns [ods_file] hands to the Faker when no content is given *)
Definition columns_used (data_columns : option (list (string * string)))
    : list (string * string) :=
  if truthy data_columns then default [] data_columns else default_data_columns.

(* PATHY_FS_STORAGE of the tests *)
Definition PATHY_FS_STORAGE : BaseStorage :=
  PathyFileSystemStorage "/tmp" "tmp" "tmp".


(** ** Pluggable generators *)

(** Modelled from the spec: the generator classes (the base generators
    [BasePdfGenerator] and [BaseMp3Generator] and the concrete ones) are not
    among the sources.  A generator is "a swappable backend that a provider
    delegates byte-production to"; an abstract base generator answers "not
    implemented".  A class is given by its name and, when it overrides
    generation, by the bytes it generates from its keyword arguments and the
    content. *)
Record GeneratorCls := mkGeneratorCls {
  cls_name : string;
  cls_generate : option (Kwargs → string → exn + bytes)
}.

(** Modelled from the spec: the [generate] method of a generator object is
    not among the sources; on an abstract generator it is "not
    implemented". *)
Definition generate (cls : GeneratorCls) (generator_kwargs : Kwargs)
    (content : string) : M bytes :=
  match cls_generate cls with
  | None => raise NotImplementedError
  | Some g => lift (g generator_kwargs content)
  end.

Definition BasePdfGenerator : GeneratorCls := mkGeneratorCls "BasePdfGenerator" None.
Definition BaseMp3Generator : GeneratorCls := mkGeneratorCls "BaseMp3Generator" None.


(* what a module attribute can be *)
Inductive PyObject :=
  | PyClass (c : GeneratorCls)
  | PyOther (v : PyVal).

(* str.rsplit(".", 1) on a string that has a dot *)
Fixpoint rsplit_dot (s : string) : option (string * string) :=
  match s with
  | EmptyString => None
  | String c r =>
      match rsplit_dot r with
      | Some (m, a) => Some (String c m, a)
      | None => if decide (c = "."%char) then Some (EmptyString, r) else None
      end
  end.

(** Modelled from the spec: [helpers.load_class_from_path] is not among the
    sources (the tests call it).  A generator class is "resolved by
    dotted-path string"; "import failed" is the error when the path does not
    resolve: no dot, no such module, no such attribute, or an attribute that
    is not a class. *)
Definition load_class_from_path (modules : gmap string (gmap string PyObject))
    (full_path : string) : exn + GeneratorCls :=
  match rsplit_dot full_path with
  | None => inl ImportError
  | Some (module_path, class_name) =>
      match modules !! module_path with
      | None => inl ImportError
      | Some module =>
          match module !! class_name with
          | Some (PyClass c) => inr c
          | Some (PyOther _) => inl ImportError
          | None => inl ImportError
          end
      end
  end.

Section Generators.
Context (E : Env).
Context (modules : gmap string (gmap string PyObject)).
Context (DEFAULT_PDF_GENERATOR DEFAULT_MP3_GENERATOR : GeneratorCls).

(** Modelled from the spec: the choice of the generator class inside
    [pdf_file] and [mp3_file], which are not among the sources: "pluggable
    generator ... classes resolved by name or direct reference", None
    standing for the default. *)
Definition resolve (default_cls : GeneratorCls)
    (generator_cls : option (string + GeneratorCls)) : M GeneratorCls :=
  match generator_cls with
  | None => ret default_cls
  | Some (inl full_path) => lift (load_class_from_path modules full_path)
  | Some (inr cls) => ret cls
  end.

(** Modelled from the spec: [providers/pdf_file] and [providers/mp3_file]
    are not among the sources.  The provider "delegates actual
    byte-production to a swappable backend", chosen by class or by dotted
    path, and writes the bytes through the storage (or returns them when
    [raw]). *)
Definition generator_file (extension : string) (default_cls : GeneratorCls)
    (storage : option BaseStorage) (prefix : option string)
    (max_nb_chars : nat) (wrap_chars_after : option nat)
    (content : option string)
    (generator_cls : option (string + GeneratorCls))
    (generator_kwargs : Kwargs) (raw : bool) : M Artifact :=
  let storage := chosen E storage in
  let* filename := generate_filename storage prefix extension in
  let* content := _generate_text_content E max_nb_chars wrap_chars_after content in
  let* cls := resolve default_cls generator_cls in
  let* data := generate cls generator_kwargs content in
  if raw then ret (BytesValue data {["content" := content]})
  else
    run write_bytes storage filename data in
    ret (StringValue (relpath storage filename) {["content" := content]}).

Definition pdf_file := generator_file "pdf" DEFAULT_PDF_GENERATOR.
Definition mp3_file := generator_file "mp3" DEFAULT_MP3_GENERATOR.

End Generators.


(** ** Containers and their inner files *)

Inductive Container := ZIP | TAR | EML.


(** Modelled from the spec: [providers/helpers/inner.py] is not among the
    sources (the tests import it).  An inner-file function with its
    [create_inner_file_args]: a plain provider ([create_inner_docx_file],
    [create_inner_txt_file], ...), a container provider with nested options
    ([create_inner_zip_file], [create_inner_tar_file],
    [create_inner_eml_file]), a list of functions run in order, or a
    "randomized selection among them". *)
Inductive InnerFunc :=
  | create_inner_plain_file (extension : string) (content : option string)
  | create_inner_container_file (k : Container) (count : option nat)
      (func : option InnerFunc)
  | list_create_inner_file (func_list : list InnerFunc)
  | fuzzy_choice_create_inner_file (func_choices : list InnerFunc).


(* options = {"count": ..., "create_inner_file_func": ...,
   "create_inner_file_args": ...}; a missing key is None *)
Record Options := mkOptions {
  opt_count : option nat;
  opt_create_inner_file_func : option InnerFunc
}.

Definition create_inner_eml_file (o : Options) : InnerFunc :=
  create_inner_container_file EML (opt_count o) (opt_create_inner_file_func o).

(* a generated inner file; a container holds its members *)
Inductive InnerFile :=
  | mkInnerFile (inner_name : string) (inner_data : bytes)
      (inner_members : list InnerFile).

Definition inner_name (f : InnerFile) : string :=
  match f with mkInnerFile n _ _ => n end.
Definition inner_data (f : InnerFile) : bytes :=
  match f with mkInnerFile _ d _ => d end.








Section Containers.
Context (E : Env).
(* the converter behind a plain provider: extension and text to bytes *)
Context (convert : string → string → exn + bytes).
(* zipfile, tarfile and email: the entries packed into one container *)
Context (pack : Container → list (string * bytes) → exn + bytes).






End Containers.


(** ** What a container is to hold *)

Section InnerFiles.
Context (E : Env).
Context (convert : string → string → exn + bytes).
Context (pack : Container → list (string * bytes) → exn + bytes).


End InnerFiles.



(** ** Sample generators and modules *)

Definition PdfkitPdfGenerator : GeneratorCls :=
  mkGeneratorCls "PdfkitPdfGenerator"
    (Some (λ _ content, inr (String.list_byte_of_string ("%PDF" +:+ content)))).

Definition GttsMp3Generator : GeneratorCls :=
  mkGeneratorCls "GttsMp3Generator"
    (Some (λ _ content, inr (String.list_byte_of_string ("ID3" +:+ content)))).

Definition sample_modules : gmap string (gmap string PyObject) :=
  {[ "faker_file.providers.pdf_file.generators.pdfkit_generator" :=
       {[ "PdfkitPdfGenerator" := PyClass PdfkitPdfGenerator ]};
     "faker_file.providers.mp3_file.generators.gtts_generator" :=
       {[ "GttsMp3Generator" := PyClass GttsMp3Generator;
          "DEFAULT_LANG" := PyOther (PyStr "en") ]} ]}.


(** ** Sample converters and options *)






(** ** More sample collaborators *)

(* [sample_env] with a renderer that fails, as when wkhtmltoimage is missing *)
Definition broken_renderer_env : Env := {|
  gettempdir := gettempdir sample_env;
  imgkit_from_string html path := inl (LibError "wkhtmltoimage");
  faker_json := faker_json sample_env;
  Dataset := Dataset sample_env;
  dataset_load_json := dataset_load_json sample_env;
  dataset_export_ods := dataset_export_ods sample_env;
  os_path_relpath := os_path_relpath sample_env;
  DEFAULT_REL_PATH := DEFAULT_REL_PATH sample_env;
  DEFAULT_IMAGE_MAX_NB_CHARS := DEFAULT_IMAGE_MAX_NB_CHARS sample_env;
  DEFAULT_FORMAT_FUNC := DEFAULT_FORMAT_FUNC sample_env;
  text_content := text_content sample_env;
  _generate_filename := _generate_filename sample_env;
  _image_file := _image_file sample_env
|}.

(* [sample_env] with a JSON loader and an ODS exporter that can fail *)
Definition picky_dataset_env : Env := {|
  gettempdir := gettempdir sample_env;
  imgkit_from_string := imgkit_from_string sample_env;
  faker_json := faker_json sample_env;
  Dataset := string;
  dataset_load_json c :=
    if decide (c = "") then inl (LibError "JSONDecodeError") else inr c;
  dataset_export_ods d :=
    if decide (d = "[]") then inl (LibError "odf") else
    inr (String.list_byte_of_string d);
  os_path_relpath := os_path_relpath sample_env;
  DEFAULT_REL_PATH := DEFAULT_REL_PATH sample_env;
  DEFAULT_IMAGE_MAX_NB_CHARS := DEFAULT_IMAGE_MAX_NB_CHARS sample_env;
  DEFAULT_FORMAT_FUNC := DEFAULT_FORMAT_FUNC sample_env;
  text_content := text_content sample_env;
  _generate_filename := _generate_filename sample_env;
  _image_file := _image_file sample_env
|}.

(* the columns as the Faker is asked for them: name=pattern; ... *)
Fixpoint show_columns (cols : list (string * string)) : string :=
  match cols with
  | [] => ""
  | (k, v) :: cols' => k +:+ "=" +:+ v +:+ ";" +:+ show_columns cols'
  end.

(* [sample_env] with a Faker whose output shows the columns and the number of
   rows it was asked for *)
Definition columns_env : Env := {|
  gettempdir := gettempdir sample_env;
  imgkit_from_string := imgkit_from_string sample_env;
  faker_json cols n seed :=
    (show_columns cols +:+ "rows=" +:+ pretty n +:+ ";seed=" +:+ pretty seed,
     S seed);
  Dataset := string;
  dataset_load_json c := inr c;
  dataset_export_ods d := inr (String.list_byte_of_string d);
  os_path_relpath := os_path_relpath sample_env;
  DEFAULT_REL_PATH := DEFAULT_REL_PATH sample_env;
  DEFAULT_IMAGE_MAX_NB_CHARS := DEFAULT_IMAGE_MAX_NB_CHARS sample_env;
  DEFAULT_FORMAT_FUNC := DEFAULT_FORMAT_FUNC sample_env;
  text_content := text_content sample_env;
  _generate_filename := _generate_filename sample_env;
  _image_file := _image_file sample_env
|}.

(* a backend on the local disk whose writes are refused *)
Definition read_only_storage : BaseStorage := {|
  generate_filename := generate_filename (FileSystemStorage "/tmp" "/srv" "media");
  generate_temporary_local_filename :=
    generate_temporary_local_filename (FileSystemStorage "/tmp" "/srv" "media");
  write_bytes f data := raise (LibError "PermissionError");
  relpath := relpath (FileSystemStorage "/tmp" "/srv" "media");
  exists_ := exists_ (FileSystemStorage "/tmp" "/srv" "media")
|}.


(** ** reportlab_snippets.py

    The snippets append flowables to the story of a document being built;
    [add_paragraph] also registers a font with reportlab.  Reportlab, PIL
    and the Faker are gathered in a record of their own. *)

Inductive Color := grey | whitesmoke | beige | black.

Inductive StyleArg :=
  | ArgColor (c : Color)
  | ArgVal (v : PyVal)
  | ArgInt (n : nat).

(* one command of a TableStyle: name, first cell, last cell, arguments;
   -1 stands for the last column or row *)
Record StyleCmd := mkStyleCmd {
  cmd_name : string;
  cmd_start : Z * Z;
  cmd_stop : Z * Z;
  cmd_args : list StyleArg
}.

Inductive Flowable :=
  | Table (table_data : list (list string)) (style : list StyleCmd)
  | Image (image_data : bytes) (width height : nat)
  | PageBreak
  | Paragraph (content : string) (fontName : string).

(* the story list the snippets append to, and pdfmetrics' font registry *)
Record Document := mkDocument {
  story : list Flowable;
  registered_fonts : gmap string string
}.

(* story.append(flowable) *)
Definition story_append (x : Flowable) (d : Document) : Document :=
  mkDocument (story d ++ [x])%list (registered_fonts d).

(* the generator object handed to a snippet *)
Record PdfGenerator := mkPdfGenerator {
  font_name : string;
  font_path : string
}.

Inductive pyexn :=
  | TypeError
  | Propagated (e : exn).

Inductive SnippetRes :=
  | SOk (d : Document) (w : World)
  | SRaise (e : pyexn) (d : Document) (w : World).

Record Reportlab := mkReportlab {
  (* provider.generator.word() from a random state *)
  faker_word : nat → string * nat;
  (* provider.generator.text(max_nb_chars=...) from a random state *)
  faker_text : nat → nat → string * nat;
  (* Table(table_data): the error, if reportlab refuses the data *)
  Table_init : list (list string) → option exn;
  (* Paragraph(content, style): the error, if the markup is refused *)
  Paragraph_init : string → option exn;
  (* TTFont(name, path): the error, if the font file cannot be loaded *)
  TTFont : string → string → option exn;
  (* PilImage.open(...).resize((w, h)) saved as JPEG *)
  pil_resize_jpeg : bytes → nat → nat → exn + bytes
}.

(* what range() makes of an argument: ints, and bools as ints *)
Definition range_arg (v : PyVal) : option nat :=
  match v with
  | PyInt n => Some n
  | PyBool b => Some (if b then 1 else 0)
  | _ => None
  end.

(* f"Header {i + 1}" *)
Definition header (i : nat) : string := "Header " +:+ pretty (i + 1).

Section Snippets.
Context (E : Env) (L : Reportlab).

(* [provider.generator.word() for _ in range(cols)] *)
Fixpoint draw_row (cols : nat) (seed : nat) : list string * nat :=
  match cols with
  | 0 => ([], seed)
  | S cols' =>
      let '(x, s1) := faker_word L seed in
      let '(xs, s2) := draw_row cols' s1 in
      (x :: xs, s2)
  end.

(* [[... for _ in range(cols)] for _ in range(rows)] *)
Fixpoint draw_rows (rows cols : nat) (seed : nat) : list (list string) * nat :=
  match rows with
  | 0 => ([], seed)
  | S rows' =>
      let '(r, s1) := draw_row cols seed in
      let '(rs, s2) := draw_rows rows' cols s1 in
      (r :: rs, s2)
  end.

Definition table_style (align font_name font_size : PyVal) : list StyleCmd :=
  [ mkStyleCmd "BACKGROUND" (0, 0)%Z (-1, 0)%Z [ArgColor grey];
    mkStyleCmd "TEXTCOLOR" (0, 0)%Z (-1, 0)%Z [ArgColor whitesmoke];
    mkStyleCmd "ALIGN" (0, 0)%Z (-1, -1)%Z [ArgVal align];
    mkStyleCmd "FONTNAME" (0, 0)%Z (-1, 0)%Z [ArgVal font_name];
    mkStyleCmd "FONTSIZE" (0, 0)%Z (-1, 0)%Z [ArgVal font_size];
    mkStyleCmd "BOTTOMPADDING" (0, 0)%Z (-1, 0)%Z [ArgInt 12];
    mkStyleCmd "BACKGROUND" (0, 1)%Z (-1, -1)%Z [ArgColor beige];
    mkStyleCmd "GRID" (0, 0)%Z (-1, -1)%Z [ArgInt 1; ArgColor black];
    mkStyleCmd "BOX" (0, 0)%Z (-1, -1)%Z [ArgInt 1; ArgColor black] ].

Definition add_table (generator : PdfGenerator) (data : gmap string string)
    (counter : nat) (kwargs : Kwargs) (d : Document) (w : World) : SnippetRes :=
  let rows := default (PyInt 3) (kwargs !! "rows") in
  let cols := default (PyInt 4) (kwargs !! "cols") in
  let font_name := default (PyStr "Helvetica-Bold") (kwargs !! "font_name") in
  let font_size := default (PyInt 14) (kwargs !! "font_size") in
  let align := default (PyStr "CENTER") (kwargs !! "align") in
  match range_arg cols with
  | None => SRaise TypeError d w
  | Some c =>
      let headers := map header (seq 0 c) in
      match range_arg rows with
      | None => SRaise TypeError d w
      | Some r =>
          let '(table_data, seed) := draw_rows r c (faker_seed w) in
          let w' := set_faker_seed seed w in
          let table_data := headers :: table_data in
          match Table_init L table_data with
          | Some e => SRaise (Propagated e) d w'
          | None =>
              SOk (story_append
                     (Table table_data (table_style align font_name font_size)) d)
                  w'
          end
      end
  end.

Definition add_picture (generator : PdfGenerator) (data : gmap string string)
    (counter : nat) (kwargs : Kwargs) (d : Document) (w : World) : SnippetRes :=
  (* JpegFileProvider(provider.generator).jpeg_file(raw=True) *)
  match jpeg_file E None None None (DEFAULT_IMAGE_MAX_NB_CHARS E) None None
          (DEFAULT_FORMAT_FUNC E) true ∅ w with
  | Raise e w' => SRaise (Propagated e) d w'
  | Ok (StringValue _ _) w' => SRaise TypeError d w'   (* BytesIO(a str) *)
  | Ok (BytesValue raw _) w' =>
      let new_width := 400 in
      let new_height := 400 in
      match pil_resize_jpeg L raw new_width new_height with
      | inl e => SRaise (Propagated e) d w'
      | inr output => SOk (story_append (Image output new_width new_height) d) w'
      end
  end.

Definition add_page_break (generator : PdfGenerator) (data : gmap string string)
    (counter : nat) (kwargs : Kwargs) (d : Document) (w : World) : SnippetRes :=
  SOk (story_append PageBreak d) w.

Definition add_paragraph (generator : PdfGenerator) (data : gmap string string)
    (counter : nat) (kwargs : Kwargs) (d : Document) (w : World) : SnippetRes :=
  (* style_paragraph.fontName = generator.font_name *)
  let fontName := font_name generator in
  (* pdfmetrics.registerFont(TTFont(generator.font_name, generator.font_path)) *)
  match TTFont L (font_name generator) (font_path generator) with
  | Some e => SRaise (Propagated e) d w
  | None =>
      let d1 := mkDocument (story d)
                  (<[font_name generator := font_path generator]>
                     (registered_fonts d)) in
      let '(content, seed) := faker_text L 5000 (faker_seed w) in
      let w' := set_faker_seed seed w in
      match Paragraph_init L content with
      | Some e => SRaise (Propagated e) d1 w'
      | None => SOk (story_append (Paragraph content fontName) d1) w'
      end
  end.

(* a snippet with the keyword arguments it is to be called with *)
Inductive Snippet :=
  | snippet_add_table (kwargs : Kwargs)
  | snippet_add_picture (kwargs : Kwargs)
  | snippet_add_page_break (kwargs : Kwargs)
  | snippet_add_paragraph (kwargs : Kwargs).

Definition call_snippet (generator : PdfGenerator) (data : gmap string string)
    (counter : nat) (s : Snippet) : Document → World → SnippetRes :=
  match s with
  | snippet_add_table kw => add_table generator data counter kw
  | snippet_add_picture kw => add_picture generator data counter kw
  | snippet_add_page_break kw => add_page_break generator data counter kw
  | snippet_add_paragraph kw => add_paragraph generator data counter kw
  end.

(* the snippets called one after the other on the same story, stopping at
   the first exception *)
Fixpoint call_snippets (generator : PdfGenerator) (data : gmap string string)
    (counter : nat) (ss : list Snippet) (d : Document) (w : World) : SnippetRes :=
  match ss with
  | [] => SOk d w
  | s :: ss' =>
      match call_snippet generator data counter s d w with
      | SOk d' w' => call_snippets generator data (S counter) ss' d' w'
      | SRaise e d' w' => SRaise e d' w'
      end
  end.

End Snippets.

Definition snippet_doc (r : SnippetRes) : Document :=
  match r with SOk d _ => d | SRaise _ d _ => d end.

Definition snippet_world (r : SnippetRes) : World :=
  match r with SOk _ w => w | SRaise _ _ w => w end.

(* stand-ins for reportlab, PIL and the Faker: words and texts numbered by
   the random state, a table needs a column, the font file must be named *)
Definition sample_reportlab : Reportlab := {|
  faker_word seed := ("w" +:+ pretty seed, S seed);
  faker_text n seed := ("text" +:+ pretty seed, S seed);
  Table_init table_data :=
    match table_data with
    | [] :: _ | [] => Some (LibError "ValueError")
    | _ => None
    end;
  Paragraph_init content := None;
  TTFont name path :=
    if decide (path = "") then Some (LibError "TTFError") else None;
  pil_resize_jpeg raw width height := inr raw
|}.

Definition sample_generator : PdfGenerator :=
  mkPdfGenerator "DejaVuSans" "/fonts/DejaVuSans.ttf".

Definition empty_document : Document := mkDocument [] ∅.


Definition two_rows : Kwargs := {["rows" := PyInt 2]}.


Definition is_picture (s : Snippet) : bool :=
  match s with snippet_add_picture _ => true | _ => false end.

(** ** The provider tests of test_providers.py *)

(* the storage column of a parametrized row: None, False or a storage *)
Inductive StorageParam :=
  | param_None
  | param_False
  | param_storage (s : BaseStorage).

Section ProviderTests.
Context (E : Env).

(* FS_STORAGE = FileSystemStorage() *)
Definition FS_STORAGE : BaseStorage :=
  FileSystemStorage (gettempdir E) (gettempdir E) (DEFAULT_REL_PATH E).

(* if storage is False: storage = FS_STORAGE *)
Definition row_storage (storage : StorageParam) : option BaseStorage :=
  match storage with
  | param_None => None
  | param_False => Some FS_STORAGE
  | param_storage s => Some s
  end.

(* the body of test_faker and test_standalone_providers for a provider
   method [method], called with _kwargs["storage"] = storage; the result is
   the value handed to assertTrue: (storage or FS_STORAGE).exists(_file) *)
Definition test_standalone_providers
    (method : option BaseStorage → M Artifact) (storage : StorageParam)
    : M bool :=
  let storage := row_storage storage in
  let* _file := method storage in
  match _file with
  | StringValue path _ =>
      λ w, Ok (exists_ (default FS_STORAGE storage) path w) w
  | BytesValue _ _ => raise (LibError "TypeError")
  end.

End ProviderTests.


(** * Properties *)

(** ** Strings and names *)

Lemma append_assoc (a b c : string) : (a +:+ b) +:+ c = a +:+ (b +:+ c).
Proof.
  induction a as [|x a IH]; [done |].
  change (String x ((a +:+ b) +:+ c) = String x (a +:+ (b +:+ c))).
  by f_equal.
Qed.

Lemma strip_prefix_app (p s : string) : strip_prefix p (p +:+ s) = Some s.
Proof.
  induction p as [|x p IH]; [done |].
  change (strip_prefix (String x p) (String x (p +:+ s)) = Some s).
  simpl. destruct (decide (x = x)); [apply IH | done].
Qed.

Lemma relpath_from_join (root x : string) : relpath_from root (join root x) = x.
Proof.
  unfold relpath_from, join.
  by rewrite <- (append_assoc root "/" x), strip_prefix_app.
Qed.

Lemma join_assoc (a b c : string) : join (join a b) c = join a (join b c).
Proof. unfold join. by rewrite (append_assoc a ("/" +:+ b) ("/" +:+ c)). Qed.

Lemma has_extension_join (dir stem ext : string) :
  has_extension (join dir (stem +:+ "." +:+ ext)) ext.
Proof.
  exists (join dir stem). unfold join.
  by rewrite (append_assoc dir ("/" +:+ stem) ("." +:+ ext)).
Qed.

Lemma has_extension_candidate dir prefix ext n :
  has_extension (candidate dir prefix ("." +:+ ext) n) ext.
Proof.
  unfold candidate.
  replace (default "tmp" prefix +:+ pretty n +:+ "." +:+ ext)
    with ((default "tmp" prefix +:+ pretty n) +:+ "." +:+ ext)
    by apply append_assoc.
  apply has_extension_join.
Qed.

Lemma first_unused_free fuel n names (d : gmap string bytes) k :
  first_unused fuel n names d = Some k → d !! names k = None.
Proof.
  revert n. induction fuel as [|fuel IH]; intros n; simpl; [done |].
  destruct (d !! names n) eqn:Hn.
  - apply IH.
  - by intros [= <-].
Qed.

(** ** The monad *)

Lemma bind_Ok {A B} (m : M A) (k : A → M B) w b w' :
  bind m k w = Ok b w' → ∃ a w1, m w = Ok a w1 ∧ k a w1 = Ok b w'.
Proof. unfold bind. destruct (m w) as [a w1|e w1]; [eauto | done]. Qed.

Lemma bind_Raise {A B} (m : M A) (k : A → M B) w e w' :
  bind m k w = Raise e w' →
  m w = Raise e w' ∨ ∃ a w1, m w = Ok a w1 ∧ k a w1 = Raise e w'.
Proof. unfold bind. destruct (m w) as [a w1|e1 w1]; [eauto | intros [= -> ->]; eauto]. Qed.

Lemma lift_Ok {A} (r : exn + A) w a w' :
  lift r w = Ok a w' → r = inr a ∧ w' = w.
Proof. destruct r; simpl; unfold raise, ret; [done | by intros [= -> ->]]. Qed.

Lemma lift_Raise {A} (r : exn + A) w e w' :
  lift r w = Raise e w' → r = inl e ∧ w' = w.
Proof. destruct r; simpl; unfold raise, ret; [by intros [= -> ->] | done]. Qed.


Lemma NamedTemporaryFile_name_Ok dir prefix suffix w f w' :
  NamedTemporaryFile_name dir prefix suffix w = Ok f w' →
  (∃ n, f = candidate dir prefix suffix n)
  ∧ disk w !! f = None
  ∧ disk w' = disk w ∧ buckets w' = buckets w ∧ faker_seed w' = faker_seed w.
Proof.
  unfold NamedTemporaryFile_name.
  destruct (first_unused _ _ _ _) as [n|] eqn:Hn; [|done].
  intros [= <- <-]. apply first_unused_free in Hn.
  split; [by exists n | done].
Qed.

Lemma FileSystemStorage_spec tmpdir root_path rel_path :
  StorageSpec (FileSystemStorage tmpdir root_path rel_path) on_disk.
Proof.
  split; simpl.
  - intros prefix ext w f w' H.
    apply NamedTemporaryFile_name_Ok in H as ([n ->] & _).
    unfold candidate. rewrite join_assoc, relpath_from_join.
    apply (has_extension_candidate rel_path prefix ext n).
  - intros prefix ext w f w' H.
    by apply NamedTemporaryFile_name_Ok in H as (_ & _ & ? & ? & ?).
  - intros prefix ext w f w' H w2.
    apply NamedTemporaryFile_name_Ok in H as ([n ->] & _).
    unfold candidate, on_disk.
    by rewrite join_assoc, relpath_from_join.
  - intros prefix ext w t w' H.
    by apply NamedTemporaryFile_name_Ok in H as (_ & ? & ? & ? & ?).
  - intros f d w u w' [= <- <-]. unfold on_disk. simpl. apply lookup_insert_eq.
  - intros f d w u w' p [= <- <-] Hp. simpl. by apply lookup_insert_ne.
  - intros f t w Hne. unfold on_disk. simpl. by apply lookup_delete_ne.
Qed.

Lemma PathyFileSystemStorage_spec tmpdir bucket_name rel_path :
  StorageSpec (PathyFileSystemStorage tmpdir bucket_name rel_path) in_bucket.
Proof.
  split; simpl.
  - intros prefix ext w f w' [= <- <-].
    rewrite join_assoc, relpath_from_join.
    replace (default "" prefix +:+ pretty (tmp_seed w) +:+ "." +:+ ext)
      with ((default "" prefix +:+ pretty (tmp_seed w)) +:+ "." +:+ ext)
      by apply append_assoc.
    apply has_extension_join.
  - by intros prefix ext w f w' [= <- <-].
  - intros prefix ext w f w' [= <- <-] w2. unfold in_bucket.
    by rewrite join_assoc, relpath_from_join.
  - intros prefix ext w t w' H.
    by apply NamedTemporaryFile_name_Ok in H as (_ & ? & ? & ? & ?).
  - intros f d w u w' [= <- <-]. unfold in_bucket. simpl. apply lookup_insert_eq.
  - by intros f d w u w' p [= <- <-] Hp.
  - by intros f t w Hne.
Qed.

(** ** Primitive steps *)

Lemma open_rb_Ok path w b w' :
  open_rb path w = Ok b w' → disk w !! path = Some b ∧ w' = w.
Proof. unfold open_rb. destruct (disk w !! path); [by intros [= -> ->] | done]. Qed.

Lemma os_remove_Ok path w u w' :
  os_remove path w = Ok u w' → w' = set_disk (delete path) w.
Proof. unfold os_remove. destruct (disk w !! path); [by intros [= _ <-] | done]. Qed.

Section ProviderFacts.
Context (E : Env).

Lemma generate_text_content_Ok n wrap content w s w' :
  _generate_text_content E n wrap content w = Ok s w' →
  ∃ k, text_content E n wrap content (faker_seed w) = (inr s, k)
       ∧ w' = set_faker_seed k w.
Proof.
  unfold _generate_text_content.
  destruct (text_content _ _ _ _ _) as [[e|t] k]; [done |].
  intros [= <- <-]. by exists k.
Qed.

Lemma imgkit_render_Ok html path w u w' :
  imgkit_render E html path w = Ok u w' →
  ∃ data, imgkit_from_string E html path = inr data
          ∧ w' = set_disk (insert path data) w.
Proof.
  unfold imgkit_render. intros H.
  apply bind_Ok in H as (data & w1 & Hr & H).
  apply lift_Ok in Hr as [Hr ->]. injection H as _ <-. by exists data.
Qed.


Lemma ico_file_body storage prefix n wrap content kwargs :
  ico_file E storage prefix n wrap content kwargs
  = html_image_file E ico_extension storage prefix n wrap content.
Proof. reflexivity. Qed.

Lemma svg_file_body storage prefix n wrap content kwargs :
  svg_file E storage prefix n wrap content kwargs
  = html_image_file E svg_extension storage prefix n wrap content.
Proof. reflexivity. Qed.


(** Everything a successful run of the shared body does. *)
Lemma html_image_file_Ok ext storage stored prefix n wrap content w a w' :
  StorageSpec (chosen E storage) stored →
  html_image_file E ext storage prefix n wrap content w = Ok a w' →
  ∃ filename tmp text data,
    a = StringValue (relpath (chosen E storage) filename) {["content" := text]}
    ∧ has_extension (relpath (chosen E storage) filename) ext
    ∧ imgkit_from_string E ("<pre>" +:+ text +:+ "</pre>") tmp = inr data
    ∧ disk w' !! tmp = None
    ∧ (∀ p, p ≠ filename → disk w' !! p = disk w !! p)
    ∧ (tmp ≠ filename →
       stored filename w' = Some data
       ∧ exists_ (chosen E storage) (relpath (chosen E storage) filename) w' = true).
Proof.
  intros HS H. unfold html_image_file in H. fold (chosen E storage) in H.
  set (s := chosen E storage) in *.
  apply bind_Ok in H as (filename & w1 & Hname & H).
  apply bind_Ok in H as (tmp & w2 & Htmp & H).
  apply bind_Ok in H as (text & w3 & Htext & H).
  apply bind_Ok in H as (u4 & w4 & Himg & H).
  apply bind_Ok in H as (data & w4' & Hread & H).
  apply bind_Ok in H as (u5 & w5 & Hwrite & H).
  apply bind_Ok in H as (u6 & w6 & Hrm & H).
  injection H as <- <-.
  pose proof (sp_name_frame _ _ HS _ _ _ _ _ Hname) as (Hd1 & _ & _).
  pose proof (sp_tmp_fresh _ _ HS _ _ _ _ _ Htmp) as (Hd2 & _ & _ & Hfresh).
  apply generate_text_content_Ok in Htext as (k & Htext & ->).
  apply imgkit_render_Ok in Himg as (data' & Himg & ->).
  apply open_rb_Ok in Hread as [Hread ->]. simpl in Hread.
  rewrite lookup_insert_eq in Hread. injection Hread as ->.
  apply os_remove_Ok in Hrm as ->.
  exists filename, tmp, text, data. split_and!.
  - done.
  - eapply sp_name_ext; eauto.
  - done.
  - simpl. apply lookup_delete_eq.
  - intros p Hp. simpl. destruct (decide (p = tmp)) as [->|Hpt].
    + rewrite lookup_delete_eq. by rewrite <- Hd1, Hfresh.
    + rewrite lookup_delete_ne by done.
      rewrite (sp_write_disk _ _ HS _ _ _ _ _ _ Hwrite Hp). simpl.
      rewrite lookup_insert_ne by done. by rewrite Hd2, Hd1.
  - intros Hne.
    assert (stored filename (set_disk (delete tmp) w5) = Some data) as Hst.
    { rewrite (sp_stored_local _ _ HS) by done.
      eapply sp_write_stored; eauto. }
    split; [done |].
    rewrite (sp_name_exists _ _ HS _ _ _ _ _ Hname), Hst.
    by apply bool_decide_eq_true_2.
Qed.

End ProviderFacts.

(** The steps of a successful run of the shared body, one after the other:
    the two names the backend handed out, the text, the rendering into the
    temporary name, and the write through the backend. *)
Lemma html_image_file_steps (E : Env) ext storage stored prefix n wrap content
    (w : World) a w' :
  StorageSpec (chosen E storage) stored →
  html_image_file E ext storage prefix n wrap content w = Ok a w' →
  ∃ filename w1 tmp w2 text w3 data,
    generate_filename (chosen E storage) prefix ext w = Ok filename w1
    ∧ generate_temporary_local_filename (chosen E storage) prefix ext w1
      = Ok tmp w2
    ∧ _generate_text_content E n wrap content w2 = Ok text w3
    ∧ imgkit_from_string E ("<pre>" +:+ text +:+ "</pre>") tmp = inr data
    ∧ a = StringValue (relpath (chosen E storage) filename) {["content" := text]}
    ∧ has_extension (relpath (chosen E storage) filename) ext
    ∧ (tmp ≠ filename →
       stored filename w' = Some data
       ∧ exists_ (chosen E storage) (relpath (chosen E storage) filename) w' = true).
Proof.
  intros HS H. unfold html_image_file in H. fold (chosen E storage) in H.
  set (s := chosen E storage) in *.
  apply bind_Ok in H as (filename & w1 & Hname & H).
  apply bind_Ok in H as (tmp & w2 & Htmp & H).
  apply bind_Ok in H as (text & w3 & Htext & H).
  apply bind_Ok in H as (u4 & w4 & Himg & H).
  apply bind_Ok in H as (data & w4' & Hread & H).
  apply bind_Ok in H as (u5 & w5 & Hwrite & H).
  apply bind_Ok in H as (u6 & w6 & Hrm & H).
  injection H as <- <-.
  apply imgkit_render_Ok in Himg as (data' & Himg & ->).
  apply open_rb_Ok in Hread as [Hread ->]. simpl in Hread.
  rewrite lookup_insert_eq in Hread. injection Hread as ->.
  apply os_remove_Ok in Hrm as ->.
  exists filename, w1, tmp, w2, text, w3, data. split_and!; try done.
  - eapply sp_name_ext; eauto.
  - intros Hne.
    assert (stored filename (set_disk (delete tmp) w5) = Some data) as Hst.
    { rewrite (sp_stored_local _ _ HS) by done.
      eapply sp_write_stored; eauto. }
    split; [done |].
    rewrite (sp_name_exists _ _ HS _ _ _ _ _ Hname), Hst.
    by apply bool_decide_eq_true_2.
Qed.


(** When every step succeeds and the two names differ, the shared body
    returns: the temporary file is there to be read and to be removed. *)
Lemma html_image_file_runs (E : Env) ext storage stored prefix n wrap content
    (w : World) f w1 t w2 text w3 data u w5 :
  StorageSpec (chosen E storage) stored →
  generate_filename (chosen E storage) prefix ext w = Ok f w1 →
  generate_temporary_local_filename (chosen E storage) prefix ext w1 = Ok t w2 →
  _generate_text_content E n wrap content w2 = Ok text w3 →
  imgkit_from_string E ("<pre>" +:+ text +:+ "</pre>") t = inr data →
  write_bytes (chosen E storage) f data (set_disk (insert t data) w3) = Ok u w5 →
  t ≠ f →
  html_image_file E ext storage prefix n wrap content w
  = Ok (StringValue (relpath (chosen E storage) f) {["content" := text]})
       (set_disk (delete t) w5).
Proof.
  intros HS Hf Ht Hx Hi Hw Hne.
  unfold html_image_file, bind. fold (chosen E storage).
  rewrite Hf, Ht, Hx. unfold imgkit_render, bind. rewrite Hi. simpl.
  unfold file_write, open_rb. simpl. rewrite lookup_insert_eq. rewrite Hw.
  unfold os_remove.
  rewrite (sp_write_disk _ _ HS _ _ _ _ _ _ Hw Hne). simpl.
  by rewrite lookup_insert_eq.
Qed.

(** ** Temporary files of [ico_file] and [svg_file] *)

(** C9: a successful [ico_file] or [svg_file] call leaves no temporary file:
    the local file the renderer wrote to is gone when the call returns, every
    other local path except the one written through the storage backend is as
    it was before the call, and (the temporary name being a name of its own)
    the file written through the backend holds the rendered bytes. *)
Theorem temporary_file_removed (E : Env) storage stored prefix n wrap content
    kwargs (w : World) a w' :
  StorageSpec (chosen E storage) stored →
  ico_file E storage prefix n wrap content kwargs w = Ok a w'
  ∨ svg_file E storage prefix n wrap content kwargs w = Ok a w' →
  ∃ filename tmp text data,
    a = StringValue (relpath (chosen E storage) filename) {["content" := text]}
    ∧ imgkit_from_string E ("<pre>" +:+ text +:+ "</pre>") tmp = inr data
    ∧ disk w' !! tmp = None
    ∧ (∀ p, p ≠ filename → disk w' !! p = disk w !! p)
    ∧ (tmp ≠ filename → stored filename w' = Some data).
Proof.
  intros HS [H|H].
  - rewrite ico_file_body in H.
    destruct (html_image_file_Ok E _ _ _ _ _ _ _ _ _ _ HS H)
      as (f & t & tx & d & ? & ? & ? & ? & ? & Hst).
    exists f, t, tx, d. split_and!; try done. intros Hne. by apply Hst.
  - rewrite svg_file_body in H.
    destruct (html_image_file_Ok E _ _ _ _ _ _ _ _ _ _ HS H)
      as (f & t & tx & d & ? & ? & ? & ? & ? & Hst).
    exists f, t, tx, d. split_and!; try done. intros Hne. by apply Hst.
Qed.

Lemma temporary_file_removed_witness :
  ∃ a w',
    ico_file sample_env None None 10 None (Some "hi") ∅ empty_world = Ok a w'
    ∧ ∃ filename tmp text data,
        a = StringValue (relpath (chosen sample_env None) filename)
              {["content" := text]}
        ∧ imgkit_from_string sample_env ("<pre>" +:+ text +:+ "</pre>") tmp
          = inr data
        ∧ disk w' !! tmp = None
        ∧ (∀ p, p ≠ filename → disk w' !! p = disk empty_world !! p)
        ∧ (tmp ≠ filename → on_disk filename w' = Some data).
Proof.
  eexists _, _. split; [reflexivity |].
  eapply (temporary_file_removed sample_env None on_disk None 10 None
            (Some "hi") ∅ empty_world).
  - apply FileSystemStorage_spec.
  - left. reflexivity.
Defined.

(** ** Content of [ods_file] *)

Lemma FAKER_json_Ok (E : Env) cols nr w s w' :
  FAKER_json E cols nr w = Ok s w' →
  s = (faker_json E cols nr (faker_seed w)).1
  ∧ w' = set_faker_seed (faker_json E cols nr (faker_seed w)).2 w.
Proof.
  unfold FAKER_json. destruct (faker_json _ _ _ _) as [j k].
  by intros [= <- <-].
Qed.

(* the content [ods_file] loads, and the world once it is known, from the
   world [w1] the file-name helper left *)
Lemma ods_content_step (E : Env) data_columns num_rows content (w1 : World) :
  match content with
  | None => FAKER_json E (columns_used data_columns) num_rows
  | Some c => ret c
  end w1
  = Ok (match content with
        | Some c => c
        | None => (faker_json E (columns_used data_columns) num_rows
                     (faker_seed w1)).1
        end)
       (match content with
        | Some _ => w1
        | None => set_faker_seed
                    (faker_json E (columns_used data_columns) num_rows
                       (faker_seed w1)).2 w1
        end).
Proof.
  destruct content as [c|]; [done |].
  unfold FAKER_json. by destruct (faker_json _ _ _ _).
Qed.

(** A successful [ods_file] call, step by step. *)
Lemma ods_file_Ok (E : Env) root_path rel_path prefix data_columns num_rows
    content kwargs (w : World) a w' :
  ods_file E root_path rel_path prefix data_columns num_rows content kwargs w
  = Ok a w' →
  ∃ file_name w1 used dataset exported,
    _generate_filename E root_path rel_path prefix ods_extension w
    = Ok file_name w1
    ∧ a = StringValue (os_path_relpath E file_name root_path)
            {["content" := used]}
    ∧ dataset_load_json E used = inr dataset
    ∧ dataset_export_ods E dataset = inr exported
    ∧ disk w' !! file_name = Some exported
    ∧ used = match content with
             | Some c => c
             | None => (faker_json E (columns_used data_columns) num_rows
                          (faker_seed w1)).1
             end.
Proof.
  intros H. unfold ods_file in H.
  apply bind_Ok in H as (file_name & w1 & Hname & H).
  apply bind_Ok in H as (used & w2 & Hused & H).
  apply bind_Ok in H as (ds & w3 & Hload & H).
  apply bind_Ok in H as (u4 & w4 & Hopen & H).
  apply bind_Ok in H as (ex & w5 & Hexp & H).
  apply bind_Ok in H as (u6 & w6 & Hwr & H).
  injection H as <- <-.
  apply lift_Ok in Hload as [Hload ->].
  apply lift_Ok in Hexp as [Hexp ->].
  injection Hwr as _ <-.
  exists file_name, w1, used, ds, ex. split_and!; try done.
  - simpl. apply lookup_insert_eq.
  - destruct content as [c|].
    + by injection Hused as <- _.
    + by apply FAKER_json_Ok in Hused as [-> _].
Qed.

(** C10: [ods_file], once the file-name helper has returned a name.  Given
    content is loaded and exported as it is, whatever [data_columns] and
    [num_rows] are.  Without content, and with [data_columns] None or the
    empty dict, the content is the JSON the Faker draws for the columns
    name: {{name}} and residency: {{address}} and for [num_rows] rows; a
    non-empty [data_columns] is handed to the Faker as it is.  In each case
    the call returns the StringValue that records this very content under
    "content", and the file holds the content loaded and exported as ODS. *)
Theorem ods_file_content (E : Env) root_path rel_path prefix kwargs (w : World)
    file_name w1 :
  _generate_filename E root_path rel_path prefix "ods" w = Ok file_name w1 →
  (∀ c data_columns num_rows dataset exported,
     dataset_load_json E c = inr dataset →
     dataset_export_ods E dataset = inr exported →
     ods_file E root_path rel_path prefix data_columns num_rows (Some c) kwargs w
     = Ok (StringValue (os_path_relpath E file_name root_path) {["content" := c]})
          (set_disk (insert file_name exported)
             (set_disk (insert file_name []) w1)))
  ∧ (∀ data_columns num_rows dataset exported,
       data_columns = None ∨ data_columns = Some [] →
       dataset_load_json E
         (faker_json E [("name", "{{name}}"); ("residency", "{{address}}")]
            num_rows (faker_seed w1)).1 = inr dataset →
       dataset_export_ods E dataset = inr exported →
       ods_file E root_path rel_path prefix data_columns num_rows None kwargs w
       = Ok (StringValue (os_path_relpath E file_name root_path)
               {["content" :=
                   (faker_json E [("name", "{{name}}"); ("residency", "{{address}}")]
                      num_rows (faker_seed w1)).1]})
            (set_disk (insert file_name exported)
               (set_disk (insert file_name [])
                  (set_faker_seed
                     (faker_json E
                        [("name", "{{name}}"); ("residency", "{{address}}")]
                        num_rows (faker_seed w1)).2 w1))))
  ∧ (∀ column columns num_rows dataset exported,
       dataset_load_json E
         (faker_json E (column :: columns) num_rows (faker_seed w1)).1
       = inr dataset →
       dataset_export_ods E dataset = inr exported →
       ods_file E root_path rel_path prefix (Some (column :: columns)) num_rows
         None kwargs w
       = Ok (StringValue (os_path_relpath E file_name root_path)
               {["content" :=
                   (faker_json E (column :: columns) num_rows (faker_seed w1)).1]})
            (set_disk (insert file_name exported)
               (set_disk (insert file_name [])
                  (set_faker_seed
                     (faker_json E (column :: columns) num_rows (faker_seed w1)).2
                     w1)))).
Proof.
  intros Hname.
  assert (∀ data_columns num_rows content dataset exported,
            let used := match content with
                        | Some c => c
                        | None => (faker_json E (columns_used data_columns)
                                     num_rows (faker_seed w1)).1
                        end in
            let w2 := match content with
                      | Some _ => w1
                      | None => set_faker_seed
                                  (faker_json E (columns_used data_columns)
                                     num_rows (faker_seed w1)).2 w1
                      end in
            dataset_load_json E used = inr dataset →
            dataset_export_ods E dataset = inr exported →
            ods_file E root_path rel_path prefix data_columns num_rows content
              kwargs w
            = Ok (StringValue (os_path_relpath E file_name root_path)
                    {["content" := used]})
                 (set_disk (insert file_name exported)
                    (set_disk (insert file_name []) w2))) as Hrun.
  { intros dc nr content dataset exported used w2 Hload Hexp.
    pose proof (ods_content_step E dc nr content w1) as Hstep.
    fold used w2 in Hstep.
    unfold ods_file, bind. change ods_extension with "ods". rewrite Hname.
    fold (columns_used dc). rewrite Hstep. rewrite Hload. simpl.
    by rewrite Hexp. }
  split_and!.
  - intros c dc nr dataset exported Hload Hexp.
    by apply (Hrun dc nr (Some c) dataset exported).
  - intros dc nr dataset exported Hdc Hload Hexp.
    destruct Hdc as [-> | ->].
    + by apply (Hrun None nr None dataset exported).
    + by apply (Hrun (Some []) nr None dataset exported).
  - intros column columns nr dataset exported Hload Hexp.
    by apply (Hrun (Some (column :: columns)) nr None dataset exported).
Qed.

Lemma ods_file_content_witness :
  (∃ w',
     ods_file columns_env None "tmp" None (Some [("city", "{{city}}")]) 7
       (Some "[]") ∅ empty_world
     = Ok (StringValue "tmp/tmp0.ods" {["content" := "[]"]}) w'
     ∧ disk w' !! "/tmp/tmp/tmp0.ods" = Some (String.list_byte_of_string "[]"))
  ∧ (∃ w',
       ods_file columns_env None "tmp" None (Some []) 3 None ∅ empty_world
       = Ok (StringValue "tmp/tmp0.ods"
               {["content" :=
                   "name={{name}};residency={{address}};rows=3;seed=0"]}) w'
       ∧ disk w' !! "/tmp/tmp/tmp0.ods"
         = Some (String.list_byte_of_string
                   "name={{name}};residency={{address}};rows=3;seed=0"))
  ∧ (∃ w',
       ods_file columns_env None "tmp" None (Some [("city", "{{city}}")]) 2 None
         ∅ empty_world
       = Ok (StringValue "tmp/tmp0.ods"
               {["content" := "city={{city}};rows=2;seed=0"]}) w'
       ∧ disk w' !! "/tmp/tmp/tmp0.ods"
         = Some (String.list_byte_of_string "city={{city}};rows=2;seed=0")).
Proof.
  destruct (ods_file_content columns_env None "tmp" None ∅ empty_world
              "/tmp/tmp/tmp0.ods" (set_tmp_seed 1 empty_world))
    as (Hgiven & Hdefault & Hcolumns); [reflexivity |].
  split_and!; eexists; split.
  - apply (Hgiven "[]" (Some [("city", "{{city}}")]) 7 "[]"
             (String.list_byte_of_string "[]")); reflexivity.
  - reflexivity.
  - apply (Hdefault (Some []) 3
             "name={{name}};residency={{address}};rows=3;seed=0"
             (String.list_byte_of_string
                "name={{name}};residency={{address}};rows=3;seed=0"));
      [by right | reflexivity | reflexivity].
  - reflexivity.
  - apply (Hcolumns ("city", "{{city}}") [] 2 "city={{city}};rows=2;seed=0"
             (String.list_byte_of_string "city={{city}};rows=2;seed=0"));
      reflexivity.
  - reflexivity.
Defined.

(** ** Storage and [raw] in the providers *)

(** What [ico_file] and [svg_file] do with the chosen backend: the returned
    path carries the extension and exists in that backend, which holds the
    bytes the renderer produced. *)
Lemma html_image_file_stores (E : Env) ext storage stored prefix n wrap content
    (w : World) a w' :
  StorageSpec (chosen E storage) stored →
  html_image_file E ext storage prefix n wrap content w = Ok a w' →
  ∃ filename tmp text data,
    a = StringValue (relpath (chosen E storage) filename) {["content" := text]}
    ∧ has_extension (relpath (chosen E storage) filename) ext
    ∧ imgkit_from_string E ("<pre>" +:+ text +:+ "</pre>") tmp = inr data
    ∧ (tmp ≠ filename →
       stored filename w' = Some data
       ∧ exists_ (chosen E storage) (relpath (chosen E storage) filename) w' = true).
Proof.
  intros HS H.
  destruct (html_image_file_Ok E _ _ _ _ _ _ _ _ _ _ HS H)
    as (f & t & tx & d & ? & ? & ? & _ & _ & Hst).
  by exists f, t, tx, d.
Qed.

Lemma ods_file_kwargs_unused (E : Env) root_path rel_path prefix data_columns
    num_rows content (kwargs kwargs' : Kwargs) :
  ods_file E root_path rel_path prefix data_columns num_rows content kwargs
  = ods_file E root_path rel_path prefix data_columns num_rows content kwargs'.
Proof. reflexivity. Qed.

(** [ods_file] touches the object store only through the file-name helper,
    which is not given the storage. *)
Lemma ods_file_buckets (E : Env) root_path rel_path prefix data_columns
    num_rows content kwargs (w : World) a w' :
  ods_file E root_path rel_path prefix data_columns num_rows content kwargs w
  = Ok a w' →
  ∃ file_name w1,
    _generate_filename E root_path rel_path prefix ods_extension w
    = Ok file_name w1
    ∧ buckets w' = buckets w1.
Proof.
  intros H. unfold ods_file in H.
  apply bind_Ok in H as (file_name & w1 & Hname & H).
  apply bind_Ok in H as (used & w2 & Hused & H).
  apply bind_Ok in H as (ds & w3 & Hload & H).
  apply bind_Ok in H as (u4 & w4 & Hopen & H).
  apply bind_Ok in H as (ex & w5 & Hexp & H).
  apply bind_Ok in H as (u6 & w6 & Hwr & H).
  injection H as _ <-.
  apply lift_Ok in Hload as [_ ->].
  apply lift_Ok in Hexp as [_ ->].
  injection Hwr as _ <-. injection Hopen as _ <-.
  exists file_name, w1. split; [done |]. simpl.
  destruct content as [c|].
  - by injection Hused as _ <-.
  - by apply FAKER_json_Ok in Hused as [_ ->].
Qed.

(** C1 (the code departs from it): [ods_file] called with the cloud-like
    storage of the tests returns the path tmp/tmp0.ods, but the file it
    produced lies on the local disk and the object store of the chosen
    backend holds nothing after the call; in any environment the call leaves
    the object store as the file-name helper left it. *)
Theorem ods_file_not_in_chosen_backend :
  (∃ data w',
     ods_file sample_env None "tmp" None None 10 None
       {["storage" := PyStorage PATHY_FS_STORAGE]} empty_world
     = Ok (StringValue "tmp/tmp0.ods" data) w'
     ∧ is_Some (disk w' !! "/tmp/tmp/tmp0.ods")
     ∧ buckets w' = ∅)
  ∧ ∀ (E : Env) (s : BaseStorage) root_path rel_path prefix data_columns
      num_rows content (kwargs : Kwargs) (w : World) a w',
      ods_file E root_path rel_path prefix data_columns num_rows content
        (<["storage" := PyStorage s]> kwargs) w = Ok a w' →
      ∃ file_name w1,
        _generate_filename E root_path rel_path prefix ods_extension w
        = Ok file_name w1
        ∧ buckets w' = buckets w1.
Proof.
  split.
  - eexists _, _. split_and!; [reflexivity | by eexists | reflexivity].
  - intros. by eapply ods_file_buckets.
Qed.

(** C5 (the code departs from it): the storage handed to [ods_file] is
    dropped with the other keyword arguments, and the path the call returns
    does not exist in that storage. *)
Theorem ods_file_storage_unused :
  (∀ (E : Env) (s : BaseStorage) root_path rel_path prefix data_columns
     num_rows content (kwargs : Kwargs),
     ods_file E root_path rel_path prefix data_columns num_rows content
       (<["storage" := PyStorage s]> kwargs)
     = ods_file E root_path rel_path prefix data_columns num_rows content kwargs)
  ∧ ∃ path data w',
      ods_file sample_env None "tmp" None None 10 None
        {["storage" := PyStorage PATHY_FS_STORAGE]} empty_world
      = Ok (StringValue path data) w'
      ∧ exists_ PATHY_FS_STORAGE path w' = false.
Proof.
  split; [reflexivity |].
  eexists _, _, _. split; reflexivity.
Qed.

(** [jpeg_file] hands its [raw] on to the image mixin, and [webp_file] a
    [raw] found among its keyword arguments. *)
Lemma jpeg_file_forwards_raw (E : Env) storage basename prefix n wrap content
    format_func raw (kwargs : Kwargs) :
  ∃ kw, jpeg_file E storage basename prefix n wrap content format_func raw kwargs
        = _image_file E jpeg_extension kw
        ∧ kw !! "raw" = Some (PyBool raw).
Proof.
  eexists. split; [reflexivity |].
  repeat (rewrite lookup_insert_ne by discriminate). apply lookup_insert_eq.
Qed.

Lemma webp_file_forwards_raw (E : Env) storage prefix n wrap content
    (kwargs : Kwargs) :
  ∃ kw, webp_file E storage prefix n wrap content kwargs
        = _image_file E webp_extension kw
        ∧ kw !! "raw" = kwargs !! "raw".
Proof.
  eexists. split; [reflexivity |].
  by repeat (rewrite lookup_insert_ne by discriminate).
Qed.

(** C6 (the code departs from it): [ico_file] has no [raw] parameter; raw=True
    lands in the ignored keyword arguments and the call still returns a
    StringValue. *)
Theorem ico_file_raw_ignored :
  (∀ (E : Env) storage prefix n wrap content (kwargs : Kwargs) (w : World),
     ico_file E storage prefix n wrap content (<["raw" := PyBool true]> kwargs) w
     = ico_file E storage prefix n wrap content kwargs w
     ∧ match ico_file E storage prefix n wrap content
               (<["raw" := PyBool true]> kwargs) w with
       | Ok a _ => is_StringValue a = true
       | Raise _ _ => True
       end)
  ∧ observable (ico_file sample_env None None 10 None (Some "hi")
                  {["raw" := PyBool true]} empty_world)
    = inr (StringValue "tmp/tmp0.ico" {["content" := "hi"]}).
Proof.
  split; [| reflexivity].
  intros E storage prefix n wrap content kwargs w. split; [reflexivity |].
  destruct (ico_file _ _ _ _ _ _ _ w) as [a w'|e w'] eqn:H; [| done].
  rewrite ico_file_body in H. unfold html_image_file in H.
  do 7 (apply bind_Ok in H as (? & ? & _ & H)).
  by injection H as <- _.
Qed.

(** ** Calls and the state they share *)

(** C7 as stated fails: the same [ods_file] call, issued first or issued
    after another [ods_file] call, returns different content, because both
    calls draw on the one random state of the module-level Faker. *)
Lemma calls_not_independent : ¬ calls_independent sample_env.
Proof.
  intros H.
  pose (c := call_ods_file None "tmp" None None 10 None ∅).
  specialize (H empty_world [] [c] c).
  vm_compute in H. discriminate H.
Qed.

(** The content a successful call records, from the random state the Faker
    was in when the call was issued. *)
Lemma perform_content (E : Env) (c : Call) (w : World) a w' :
  (∀ root_path rel_path prefix ext v f v1,
     _generate_filename E root_path rel_path prefix ext v = Ok f v1 →
     faker_seed v1 = faker_seed v) →
  (∀ s, call_storage E c = Some s → ∃ stored, StorageSpec s stored) →
  perform E c w = Ok a w' →
  artifact_data a
  = {["content" :=
        match c with
        | call_ico_file _ _ n wrap content _
        | call_svg_file _ _ n wrap content _ =>
            match (text_content E n wrap content (faker_seed w)).1 with
            | inr text => text
            | inl _ => ""
            end
        | call_ods_file _ _ _ dc nr (Some ct) _ => ct
        | call_ods_file _ _ _ dc nr None _ =>
            (faker_json E (columns_used dc) nr (faker_seed w)).1
        end]}.
Proof.
  intros Hhelper HS H.
  assert (∀ ext st p n wr ct,
            (∃ stored, StorageSpec (chosen E st) stored) →
            html_image_file E ext st p n wr ct w = Ok a w' →
            artifact_data a
            = {["content" :=
                  match (text_content E n wr ct (faker_seed w)).1 with
                  | inr text => text
                  | inl _ => ""
                  end]}) as Himage.
  { intros ext st p n wr ct [stored HSt] Hcall.
    destruct (html_image_file_steps E _ _ _ _ _ _ _ _ _ _ HSt Hcall)
      as (f & w1 & t & w2 & tx & w3 & d & Hf & Ht & Hx & _ & -> & _).
    pose proof (sp_name_frame _ _ HSt _ _ _ _ _ Hf) as (_ & _ & Hs1).
    pose proof (sp_tmp_fresh _ _ HSt _ _ _ _ _ Ht) as (_ & _ & Hs2 & _).
    apply generate_text_content_Ok in Hx as (k & Hx & _).
    rewrite Hs2, Hs1 in Hx. by rewrite Hx. }
  destruct c as [st p n wr ct kw | st p n wr ct kw | rt rl p dc nr ct kw];
    simpl in H.
  - rewrite ico_file_body in H. eapply Himage; [| exact H]. by apply HS.
  - rewrite svg_file_body in H. eapply Himage; [| exact H]. by apply HS.
  - apply ods_file_Ok in H as (f & w1 & used & ds & ex & Hf & -> & _ & _ & _ & ->).
    apply Hhelper in Hf. rewrite Hf. by destruct ct.
Qed.

(** C7, amended: what a call shares with the calls before it is the random
    state of the Faker (and the files and names in use, which decide the
    name of the new file).  The content a call records depends on the calls
    before it through that random state and through nothing else: two runs
    that leave the Faker in the same state record the same content for the
    same call, whatever files and names they left behind; an [ods_file] call
    given content records that content after any run; and of two [ods_file]
    calls in a row the second draws its content from the random state the
    first one left.  (The file-name helper is taken not to draw on the
    Faker.) *)
Theorem content_depends_on_faker_state_only (E : Env) (w0 : World)
    (before1 before2 : list Call) (c : Call) :
  (∀ root_path rel_path prefix ext v f v1,
     _generate_filename E root_path rel_path prefix ext v = Ok f v1 →
     faker_seed v1 = faker_seed v) →
  (∀ s, call_storage E c = Some s → ∃ stored, StorageSpec s stored) →
  (faker_seed (perform_all E before1 w0) = faker_seed (perform_all E before2 w0) →
   ∀ a1 w1 a2 w2,
     perform E c (perform_all E before1 w0) = Ok a1 w1 →
     perform E c (perform_all E before2 w0) = Ok a2 w2 →
     artifact_data a1 = artifact_data a2)
  ∧ (∀ root_path rel_path prefix data_columns num_rows ct kwargs a1 w1,
       c = call_ods_file root_path rel_path prefix data_columns num_rows
             (Some ct) kwargs →
       perform E c (perform_all E before1 w0) = Ok a1 w1 →
       artifact_data a1 = {["content" := ct]})
  ∧ (∀ root_path rel_path prefix data_columns num_rows kwargs a1 w1 a2 w2,
       c = call_ods_file root_path rel_path prefix data_columns num_rows None
             kwargs →
       perform E c w0 = Ok a1 w1 →
       perform E c w1 = Ok a2 w2 →
       let columns :=
         match data_columns with
         | Some (column :: columns) => column :: columns
         | _ => [("name", "{{name}}"); ("residency", "{{address}}")]
         end in
       artifact_data a1
       = {["content" := (faker_json E columns num_rows (faker_seed w0)).1]}
       ∧ artifact_data a2
         = {["content" :=
               (faker_json E columns num_rows
                  (faker_json E columns num_rows (faker_seed w0)).2).1]}).
Proof.
  intros Hhelper HS. split_and!.
  - intros Hseed a1 w1 a2 w2 H1 H2.
    rewrite (perform_content E c _ _ _ Hhelper HS H1).
    rewrite (perform_content E c _ _ _ Hhelper HS H2).
    by rewrite Hseed.
  - intros rt rl p dc nr ct kw a1 w1 -> H1.
    by rewrite (perform_content E _ _ _ _ Hhelper HS H1).
  - intros rt rl p dc nr kw a1 w1 a2 w2 -> H1 H2 columns.
    assert (columns_used dc = columns) as Hc by (by destruct dc as [[|??]|]).
    rewrite (perform_content E _ _ _ _ Hhelper HS H1).
    rewrite (perform_content E _ _ _ _ Hhelper HS H2).
    rewrite Hc. split; [done |].
    simpl in H1. unfold ods_file in H1.
    apply bind_Ok in H1 as (f & v1 & Hf & H1).
    apply Hhelper in Hf.
    fold (columns_used dc) in H1. rewrite Hc in H1.
    apply bind_Ok in H1 as (used & v2 & Hused & H1).
    apply FAKER_json_Ok in Hused as [_ ->].
    apply bind_Ok in H1 as (ds & v3 & Hload & H1).
    apply lift_Ok in Hload as [_ ->].
    apply bind_Ok in H1 as (u4 & v4 & Hopen & H1). injection Hopen as _ <-.
    apply bind_Ok in H1 as (ex & v5 & Hexp & H1).
    apply lift_Ok in Hexp as [_ ->].
    apply bind_Ok in H1 as (u6 & v6 & Hwr & H1). injection Hwr as _ <-.
    injection H1 as _ <-. simpl. by rewrite Hf.
Qed.

Lemma content_depends_on_faker_state_only_witness :
  ∃ data1 w1 data2 w2,
    perform sample_env (call_ods_file None "tmp" None None 3 None ∅)
      (perform_all sample_env
         [call_ods_file None "tmp" None None 3 (Some "[]") ∅;
          call_ods_file None "tmp" (Some "x") None 3 (Some "[1]") ∅] empty_world)
    = Ok (StringValue "tmp/tmp2.ods" data1) w1
    ∧ perform sample_env (call_ods_file None "tmp" None None 3 None ∅)
        (perform_all sample_env [] empty_world)
      = Ok (StringValue "tmp/tmp0.ods" data2) w2
    ∧ data1 = data2.
Proof.
  eexists _, _, _, _.
  split; [vm_compute; reflexivity |]. split; [vm_compute; reflexivity |].
  pose proof (content_depends_on_faker_state_only sample_env empty_world
                [call_ods_file None "tmp" None None 3 (Some "[]") ∅;
                 call_ods_file None "tmp" (Some "x") None 3 (Some "[1]") ∅]
                [] (call_ods_file None "tmp" None None 3 None ∅)) as H.
  destruct H as (Hsame & _ & _).
  - intros rt rl p ext v f v1 Hf.
    by apply NamedTemporaryFile_name_Ok in Hf as (_ & _ & _ & _ & ?).
  - intros s [=].
  - refine (Hsame eq_refl (StringValue "tmp/tmp2.ods" _) _
              (StringValue "tmp/tmp0.ods" _) _ _ _);
      vm_compute; reflexivity.
Defined.

(** ** Generator classes by name and by reference *)

Lemma rsplit_dot_app (module_path class_name : string) :
  rsplit_dot class_name = None →
  rsplit_dot (module_path +:+ "." +:+ class_name) = Some (module_path, class_name).
Proof.
  intros Hc. induction module_path as [|c m IH].
  - change (rsplit_dot (String "."%char class_name) = Some (EmptyString, class_name)).
    simpl. by rewrite Hc.
  - change (rsplit_dot (String c (m +:+ "." +:+ class_name))
            = Some (String c m, class_name)).
    simpl. by rewrite IH.
Qed.

Lemma rsplit_dot_Some (s m a : string) :
  rsplit_dot s = Some (m, a) → s = m +:+ "." +:+ a ∧ rsplit_dot a = None.
Proof.
  revert m. induction s as [|c r IH]; intros m; simpl; [done |].
  destruct (rsplit_dot r) as [[m' a']|] eqn:Hr.
  - intros [= <- <-]. destruct (IH m' eq_refl) as [-> Ha]. done.
  - destruct (decide (c = "."%char)) as [->|]; [| done].
    by intros [= <- <-].
Qed.

Lemma load_class_from_path_inr modules full_path c :
  load_class_from_path modules full_path = inr c ↔
  ∃ module_path class_name module,
    rsplit_dot full_path = Some (module_path, class_name)
    ∧ modules !! module_path = Some module
    ∧ module !! class_name = Some (PyClass c).
Proof.
  unfold load_class_from_path. split.
  - destruct (rsplit_dot full_path) as [[m a]|]; [| done].
    destruct (modules !! m) as [module|] eqn:Hm; [| done].
    destruct (module !! a) as [[c'|v]|] eqn:Ha; try done.
    intros [= <-]. by exists m, a, module.
  - intros (m & a & module & -> & -> & ->). done.
Qed.


(** A dotted path resolves exactly when it reads module.Class, Class holding
    no further dot, with the module known and Class a class in it. *)
Lemma rsplit_dot_None (s : string) :
  rsplit_dot s = None ↔ ∀ a b, s ≠ a +:+ "." +:+ b.
Proof.
  split.
  - intros Hs a b ->. revert Hs. induction a as [|c a IH].
    + change (rsplit_dot (String "."%char b) = None → False). simpl.
      by destruct (rsplit_dot b) as [[??]|].
    + change (rsplit_dot (String c (a +:+ "." +:+ b)) = None → False). simpl.
      destruct (rsplit_dot (a +:+ "." +:+ b)) as [[??]|]; [done |].
      intros _. by apply IH.
  - intros Hs. destruct (rsplit_dot s) as [[m a]|] eqn:H; [| done].
    apply rsplit_dot_Some in H as [-> _]. by destruct (Hs m a).
Qed.

Lemma resolve_Ok modules default_cls generator_cls w cls w' :
  resolve modules default_cls generator_cls w = Ok cls w' ↔
  w' = w
  ∧ match generator_cls with
    | None => cls = default_cls
    | Some (inr c) => cls = c
    | Some (inl full_path) => load_class_from_path modules full_path = inr cls
    end.
Proof.
  unfold resolve. destruct generator_cls as [[p|c]|]; simpl; unfold ret.
  - destruct (load_class_from_path modules p) as [e|c]; simpl;
      unfold raise, ret; split; try done.
    + by intros [_ ?].
    + by intros [= -> ->].
    + by intros [-> [= ->]].
  - split; [by intros [= -> ->] | by intros [-> ->]].
  - split; [by intros [= -> ->] | by intros [-> ->]].
Qed.

(** A generator-backed provider whose steps succeed: the bytes of the selected
    class, written through the backend or returned raw. *)
Lemma generator_file_Ok (E : Env) modules ext default_cls storage prefix
    n wrap content generator_cls cls kwargs (w : World) f w1 text w2 g data :
  match generator_cls with
  | None => cls = default_cls
  | Some (inr c) => cls = c
  | Some (inl full_path) => load_class_from_path modules full_path = inr cls
  end →
  generate_filename (chosen E storage) prefix ext w = Ok f w1 →
  _generate_text_content E n wrap content w1 = Ok text w2 →
  cls_generate cls = Some g →
  g kwargs text = inr data →
  generator_file E modules ext default_cls storage prefix n wrap content
    generator_cls kwargs true w
  = Ok (BytesValue data {["content" := text]}) w2
  ∧ ∀ stored u w3,
      StorageSpec (chosen E storage) stored →
      write_bytes (chosen E storage) f data w2 = Ok u w3 →
      generator_file E modules ext default_cls storage prefix n wrap content
        generator_cls kwargs false w
      = Ok (StringValue (relpath (chosen E storage) f) {["content" := text]}) w3
      ∧ has_extension (relpath (chosen E storage) f) ext
      ∧ stored f w3 = Some data
      ∧ exists_ (chosen E storage) (relpath (chosen E storage) f) w3 = true.
Proof.
  intros Hsel Hf Ht Hg Hd.
  assert (resolve modules default_cls generator_cls w2 = Ok cls w2) as Hres
    by (by apply resolve_Ok).
  assert (generate cls kwargs text w2 = Ok data w2) as Hgen
    by (unfold generate; by rewrite Hg, Hd).
  split.
  - unfold generator_file, bind. by rewrite Hf, Ht, Hres, Hgen.
  - intros stored u w3 HS Hw. split_and!.
    + unfold generator_file, bind. by rewrite Hf, Ht, Hres, Hgen, Hw.
    + eapply sp_name_ext; eauto.
    + eapply sp_write_stored; eauto.
    + rewrite (sp_name_exists _ _ HS _ _ _ _ _ Hf).
      rewrite (sp_write_stored _ _ HS _ _ _ _ _ Hw).
      by apply bool_decide_eq_true_2.
Qed.

(** C3: a generator class named by its dotted path (module.Class) and the
    same class passed directly select the same backend.  [pdf_file] and
    [mp3_file] behave the same on both, whatever the other arguments and the
    world; and when the steps of the call succeed, the call with the path
    returns the path of a file with the provider's extension that exists in
    the storage and holds the bytes which that class generated from the
    text (with raw, it returns those bytes). *)
Theorem generator_by_path_or_class (E : Env)
    (modules : gmap string (gmap string PyObject))
    (default_pdf default_mp3 : GeneratorCls)
    (provider : option BaseStorage → option string → nat → option nat →
                option string → option (string + GeneratorCls) → Kwargs →
                bool → M Artifact)
    (ext module_path class_name : string) (module : gmap string PyObject)
    (cls : GeneratorCls) :
  (provider = pdf_file E modules default_pdf ∧ ext = "pdf")
  ∨ (provider = mp3_file E modules default_mp3 ∧ ext = "mp3") →
  modules !! module_path = Some module →
  module !! class_name = Some (PyClass cls) →
  (∀ a b, class_name ≠ a +:+ "." +:+ b) →
  (∀ storage prefix n wrap content kwargs raw (w : World),
     provider storage prefix n wrap content
       (Some (inl (module_path +:+ "." +:+ class_name))) kwargs raw w
     = provider storage prefix n wrap content (Some (inr cls)) kwargs raw w)
  ∧ (∀ storage stored prefix n wrap content kwargs (w : World) f w1 text w2
       g data u w3,
       StorageSpec (chosen E storage) stored →
       generate_filename (chosen E storage) prefix ext w = Ok f w1 →
       _generate_text_content E n wrap content w1 = Ok text w2 →
       cls_generate cls = Some g →
       g kwargs text = inr data →
       write_bytes (chosen E storage) f data w2 = Ok u w3 →
       provider storage prefix n wrap content
         (Some (inl (module_path +:+ "." +:+ class_name))) kwargs false w
       = Ok (StringValue (relpath (chosen E storage) f) {["content" := text]}) w3
       ∧ has_extension (relpath (chosen E storage) f) ext
       ∧ stored f w3 = Some data
       ∧ exists_ (chosen E storage) (relpath (chosen E storage) f) w3 = true)
  ∧ (∀ storage prefix n wrap content kwargs (w : World) f w1 text w2 g data,
       generate_filename (chosen E storage) prefix ext w = Ok f w1 →
       _generate_text_content E n wrap content w1 = Ok text w2 →
       cls_generate cls = Some g →
       g kwargs text = inr data →
       provider storage prefix n wrap content
         (Some (inl (module_path +:+ "." +:+ class_name))) kwargs true w
       = Ok (BytesValue data {["content" := text]}) w2).
Proof.
  intros Hp Hm Ha Hc.
  assert (load_class_from_path modules (module_path +:+ "." +:+ class_name)
          = inr cls) as Hload.
  { apply load_class_from_path_inr. exists module_path, class_name, module.
    rewrite rsplit_dot_app; [done |]. by apply rsplit_dot_None. }
  assert (∃ default_cls, provider = generator_file E modules ext default_cls)
    as [default_cls ->].
  { destruct Hp as [[-> ->] | [-> ->]]; by eexists. }
  split_and!.
  - intros. unfold generator_file, resolve. by rewrite Hload.
  - intros storage stored prefix n wrap content kwargs w f w1 text w2 g data u
      w3 HS Hf Ht Hg Hd Hw.
    by eapply (generator_file_Ok E modules ext default_cls storage prefix n
                 wrap content
                 (Some (inl (module_path +:+ "." +:+ class_name)))).
  - intros storage prefix n wrap content kwargs w f w1 text w2 g data
      Hf Ht Hg Hd.
    by eapply (generator_file_Ok E modules ext default_cls storage prefix n
                 wrap content
                 (Some (inl (module_path +:+ "." +:+ class_name)))).
Qed.

Lemma generator_by_path_or_class_witness :
  ∃ w',
    mp3_file sample_env sample_modules BaseMp3Generator (Some PATHY_FS_STORAGE)
      None 10 None (Some "x")
      (Some (inl "faker_file.providers.mp3_file.generators.gtts_generator.GttsMp3Generator"))
      ∅ false empty_world
    = Ok (StringValue "tmp/0.mp3" {["content" := "x"]}) w'
    ∧ mp3_file sample_env sample_modules BaseMp3Generator (Some PATHY_FS_STORAGE)
        None 10 None (Some "x") (Some (inr GttsMp3Generator)) ∅ false empty_world
      = Ok (StringValue "tmp/0.mp3" {["content" := "x"]}) w'
    ∧ in_bucket "tmp/tmp/0.mp3" w' = Some (String.list_byte_of_string "ID3x")
    ∧ exists_ PATHY_FS_STORAGE "tmp/0.mp3" w' = true.
Proof.
  destruct (generator_by_path_or_class sample_env sample_modules
              BasePdfGenerator BaseMp3Generator
              (mp3_file sample_env sample_modules BaseMp3Generator) "mp3"
              "faker_file.providers.mp3_file.generators.gtts_generator"
              "GttsMp3Generator"
              {[ "GttsMp3Generator" := PyClass GttsMp3Generator;
                 "DEFAULT_LANG" := PyOther (PyStr "en") ]}
              GttsMp3Generator) as (Hsame & Hfile & _).
  - by right.
  - reflexivity.
  - reflexivity.
  - apply rsplit_dot_None. reflexivity.
  - destruct (Hfile (Some PATHY_FS_STORAGE) in_bucket None 10 None (Some "x") ∅
                empty_world "tmp/tmp/0.mp3" (set_tmp_seed 1 empty_world) "x"
                (set_faker_seed 1 (set_tmp_seed 1 empty_world))
                (λ _ content, inr (String.list_byte_of_string ("ID3" +:+ content)))
                (String.list_byte_of_string "ID3x") tt
                (set_buckets (insert "tmp/tmp/0.mp3"
                                (String.list_byte_of_string "ID3x"))
                   (set_faker_seed 1 (set_tmp_seed 1 empty_world))))
      as (Hcall & _ & Hstored & Hexists);
      try reflexivity; [apply PathyFileSystemStorage_spec |].
    eexists. split; [exact Hcall |]. split; [| by split].
    rewrite <- Hsame. exact Hcall.
Defined.

(** ** Errors *)






Example test_load_class_from_path_class_not_found :
  load_class_from_path sample_modules
    "faker_file.providers.mp3_file.generators.gtts_generator.ClassDoesNotExist"
  = inl ImportError.
Proof. reflexivity. Qed.

Example test_load_class_from_path_no_class_type :
  load_class_from_path sample_modules
    "faker_file.providers.mp3_file.generators.gtts_generator.DEFAULT_LANG"
  = inl ImportError.
Proof. reflexivity. Qed.

Example test_load_class_from_path_found :
  load_class_from_path sample_modules
    "faker_file.providers.mp3_file.generators.gtts_generator.GttsMp3Generator"
  = inr GttsMp3Generator.
Proof. reflexivity. Qed.

(** ** Containers *)




(** *** What the inner files are *)



Section ContainerRuns.
Context (E : Env).
Context (convert : string → string → exn + bytes).
Context (pack : Container → list (string * bytes) → exn + bytes).




(** *** When a container call returns *)

Context (text_total : ∀ n wrap content seed,
           ∃ text seed', text_content E n wrap content seed = (inr text, seed')).
Context (convert_total : ∀ ext text, ∃ data, convert ext text = inr data).
Context (pack_total : ∀ k members, ∃ data, pack k members = inr data).











End ContainerRuns.

Section ContainerProviders.
Context (E : Env).
Context (convert : string → string → exn + bytes).
Context (pack : Container → list (string * bytes) → exn + bytes).


End ContainerProviders.


(** * Further properties of the providers *)

(** ** [ico_file] and [svg_file]: results and failures *)

Lemma read_only_storage_spec : StorageSpec read_only_storage on_disk.
Proof.
  pose proof (FileSystemStorage_spec "/tmp" "/srv" "media") as HS.
  split; try done.
  - apply (sp_name_ext _ _ HS).
  - apply (sp_name_frame _ _ HS).
  - apply (sp_name_exists _ _ HS).
  - apply (sp_tmp_fresh _ _ HS).
  - apply (sp_stored_local _ _ HS).
Qed.

(** X1: a successful [ico_file] (or [svg_file]) call has asked the backend in
    use (the one passed, or FileSystemStorage() for None) for a file name
    and then for a temporary name, has generated the text, and has had the
    renderer turn that text, wrapped in a pre element, into the temporary
    file.  It returns a StringValue whose path is the file name relative to
    the backend, ends in .ico (.svg), and whose data records the text; and
    the backend holds the rendered bytes under that name, which exists
    there, the temporary name being another name than the file name.
    Conversely, when these steps and the backend's write succeed and the two
    names differ, the call returns that StringValue, in the world the write
    left less the temporary file. *)
Theorem html_image_providers_store (E : Env) storage stored prefix n wrap
    content kwargs (w : World) (ext : string)
    (provider : option BaseStorage → option string → nat → option nat →
                option string → Kwargs → M Artifact) :
  StorageSpec (chosen E storage) stored →
  (ext = "ico" ∧ provider = ico_file E)
  ∨ (ext = "svg" ∧ provider = svg_file E) →
  (∀ a w',
     provider storage prefix n wrap content kwargs w = Ok a w' →
     ∃ filename w1 tmp w2 text w3 data,
       generate_filename (chosen E storage) prefix ext w = Ok filename w1
       ∧ generate_temporary_local_filename (chosen E storage) prefix ext w1
         = Ok tmp w2
       ∧ _generate_text_content E n wrap content w2 = Ok text w3
       ∧ imgkit_from_string E ("<pre>" +:+ text +:+ "</pre>") tmp = inr data
       ∧ a = StringValue (relpath (chosen E storage) filename)
               {["content" := text]}
       ∧ has_extension (relpath (chosen E storage) filename) ext
       ∧ (tmp ≠ filename →
          stored filename w' = Some data
          ∧ exists_ (chosen E storage) (relpath (chosen E storage) filename) w'
            = true))
  ∧ (∀ filename w1 tmp w2 text w3 data u w5,
       generate_filename (chosen E storage) prefix ext w = Ok filename w1 →
       generate_temporary_local_filename (chosen E storage) prefix ext w1
       = Ok tmp w2 →
       _generate_text_content E n wrap content w2 = Ok text w3 →
       imgkit_from_string E ("<pre>" +:+ text +:+ "</pre>") tmp = inr data →
       write_bytes (chosen E storage) filename data
         (set_disk (insert tmp data) w3) = Ok u w5 →
       tmp ≠ filename →
       provider storage prefix n wrap content kwargs w
       = Ok (StringValue (relpath (chosen E storage) filename)
               {["content" := text]})
            (set_disk (delete tmp) w5)).
Proof.
  intros HS Hp.
  assert (provider storage prefix n wrap content kwargs
          = html_image_file E ext storage prefix n wrap content) as ->.
  { destruct Hp as [[-> ->] | [-> ->]];
      [apply ico_file_body | apply svg_file_body]. }
  split.
  - intros a w' H. by eapply html_image_file_steps.
  - intros. by eapply html_image_file_runs.
Qed.

Lemma html_image_providers_store_witness :
  ∃ a w',
    svg_file sample_env (Some PATHY_FS_STORAGE) (Some "zzz") 10 None None ∅
      empty_world = Ok a w'
    ∧ a = StringValue "tmp/zzz0.svg" {["content" := "text0"]}
    ∧ in_bucket "tmp/tmp/zzz0.svg" w'
      = Some (String.list_byte_of_string "<pre>text0</pre>")
    ∧ exists_ PATHY_FS_STORAGE "tmp/zzz0.svg" w' = true.
Proof.
  eexists _, _. split; [reflexivity |].
  destruct (html_image_providers_store sample_env (Some PATHY_FS_STORAGE)
              in_bucket (Some "zzz") 10 None None ∅ empty_world "svg"
              (svg_file sample_env)
              (PathyFileSystemStorage_spec "/tmp" "tmp" "tmp")
              (or_intror (conj eq_refl eq_refl))) as [Hsteps _].
  destruct (Hsteps _ _ eq_refl)
    as (f & w1 & t & w2 & tx & w3 & d & Hf & Ht & Hx & Hi & Ha & _ & Hst).
  injection Hf as <- <-. injection Ht as <- <-. injection Hx as <- <-.
  injection Hi as <-.
  split; [exact Ha |]. by apply Hst.
Defined.

Lemma generate_text_content_Raise (E : Env) n wrap content w e w' :
  _generate_text_content E n wrap content w = Raise e w' →
  disk w' = disk w ∧ buckets w' = buckets w.
Proof.
  unfold _generate_text_content.
  destruct (text_content _ _ _ _ _) as [[e1|t] k]; [| done].
  by intros [= _ <-].
Qed.

Lemma imgkit_render_Raise (E : Env) html path w e w' :
  imgkit_render E html path w = Raise e w' →
  imgkit_from_string E html path = inl e ∧ w' = w.
Proof.
  unfold imgkit_render. intros H.
  apply bind_Raise in H as [H | (data & w1 & _ & H)]; [| done].
  by apply lift_Raise in H.
Qed.

(** Where an exception of the body shared by [ico_file] and [svg_file] comes
    from, and what the call has touched by then. *)
Lemma html_image_file_Raise (E : Env) ext storage stored prefix n wrap content
    (w : World) e w' :
  StorageSpec (chosen E storage) stored →
  html_image_file E ext storage prefix n wrap content w = Raise e w' →
  generate_filename (chosen E storage) prefix ext w = Raise e w'
  ∨ (∃ f w1,
       generate_filename (chosen E storage) prefix ext w = Ok f w1
       ∧ generate_temporary_local_filename (chosen E storage) prefix ext w1
         = Raise e w')
  ∨ (∃ w2, _generate_text_content E n wrap content w2 = Raise e w'
           ∧ disk w' = disk w ∧ buckets w' = buckets w)
  ∨ (∃ text tmp,
       imgkit_from_string E ("<pre>" +:+ text +:+ "</pre>") tmp = inl e
       ∧ disk w' = disk w ∧ buckets w' = buckets w)
  ∨ (∃ f tmp data w4,
       write_bytes (chosen E storage) f data w4 = Raise e w'
       ∧ disk w4 !! tmp = Some data)
  ∨ (e = FileNotFoundError
     ∧ ∃ f w1 w2,
         generate_filename (chosen E storage) prefix ext w = Ok f w1
         ∧ generate_temporary_local_filename (chosen E storage) prefix ext w1
           = Ok f w2).
Proof.
  intros HS H. unfold html_image_file in H. fold (chosen E storage) in H.
  set (s := chosen E storage) in *.
  apply bind_Raise in H as [H | (filename & w1 & Hname & H)]; [by left |].
  apply bind_Raise in H as [H | (tmp & w2 & Htmp & H)]; [right; left; eauto |].
  pose proof (sp_name_frame _ _ HS _ _ _ _ _ Hname) as (Hd1 & Hb1 & _).
  pose proof (sp_tmp_fresh _ _ HS _ _ _ _ _ Htmp) as (Hd2 & Hb2 & _ & Hfresh).
  apply bind_Raise in H as [H | (text & w3 & Htext & H)].
  { do 2 right. left. exists w2.
    destruct (generate_text_content_Raise _ _ _ _ _ _ _ H) as [Hd Hb].
    split_and!; [done | congruence | congruence]. }
  apply generate_text_content_Ok in Htext as (k & Htext & ->).
  apply bind_Raise in H as [H | (u4 & w4 & Himg & H)].
  { apply imgkit_render_Raise in H as [H ->].
    do 3 right. left. exists text, tmp. simpl.
    split_and!; [done | congruence | congruence]. }
  apply imgkit_render_Ok in Himg as (data & Himg & ->).
  apply bind_Raise in H as [H | (data' & w4' & Hread & H)].
  { unfold open_rb in H. simpl in H. by rewrite lookup_insert_eq in H. }
  apply open_rb_Ok in Hread as [Hread ->]. simpl in Hread.
  rewrite lookup_insert_eq in Hread. injection Hread as <-.
  apply bind_Raise in H as [H | (u5 & w5 & Hwrite & H)].
  { do 4 right. left. eexists filename, tmp, data, _. split; [exact H |].
    simpl. apply lookup_insert_eq. }
  apply bind_Raise in H as [H | (u6 & w6 & _ & H)]; [| done].
  do 5 right.
  destruct (decide (tmp = filename)) as [->|Hne].
  - unfold os_remove in H. destruct (disk w5 !! filename); [done |].
    injection H as <- _. split; [done |]. eauto.
  - unfold os_remove in H.
    rewrite (sp_write_disk _ _ HS _ _ _ _ _ _ Hwrite Hne) in H. simpl in H.
    by rewrite lookup_insert_eq in H.
Qed.

(** X2: [ico_file] and [svg_file] raise nothing of their own.  An exception
    of a call was raised by the backend's name generation, by the text
    generation, by the renderer (and then the disk and the object store are
    as before the call), or by the backend's write (and then the rendered
    temporary file was on the disk when the write began); reading and
    removing the temporary file cannot fail, unless the backend handed out
    one name for both the file and the temporary file. *)
Theorem html_image_providers_raise (E : Env) storage stored prefix n wrap
    content kwargs (w : World) e w' (ext : string) :
  StorageSpec (chosen E storage) stored →
  (ext = ico_extension
   ∧ ico_file E storage prefix n wrap content kwargs w = Raise e w')
  ∨ (ext = svg_extension
     ∧ svg_file E storage prefix n wrap content kwargs w = Raise e w') →
  generate_filename (chosen E storage) prefix ext w = Raise e w'
  ∨ (∃ f w1,
       generate_filename (chosen E storage) prefix ext w = Ok f w1
       ∧ generate_temporary_local_filename (chosen E storage) prefix ext w1
         = Raise e w')
  ∨ (∃ w2, _generate_text_content E n wrap content w2 = Raise e w'
           ∧ disk w' = disk w ∧ buckets w' = buckets w)
  ∨ (∃ text tmp,
       imgkit_from_string E ("<pre>" +:+ text +:+ "</pre>") tmp = inl e
       ∧ disk w' = disk w ∧ buckets w' = buckets w)
  ∨ (∃ f tmp data w4,
       write_bytes (chosen E storage) f data w4 = Raise e w'
       ∧ disk w4 !! tmp = Some data)
  ∨ (e = FileNotFoundError
     ∧ ∃ f w1 w2,
         generate_filename (chosen E storage) prefix ext w = Ok f w1
         ∧ generate_temporary_local_filename (chosen E storage) prefix ext w1
           = Ok f w2).
Proof.
  intros HS [[-> H] | [-> H]].
  - rewrite ico_file_body in H. by eapply html_image_file_Raise.
  - rewrite svg_file_body in H. by eapply html_image_file_Raise.
Qed.

Lemma html_image_providers_raise_witness :
  ∃ e w',
    ico_file broken_renderer_env None None 10 None (Some "hi") ∅ empty_world
    = Raise e w'
    ∧ (generate_filename (chosen broken_renderer_env None) None "ico" empty_world
       = Raise e w'
       ∨ (∃ f w1,
            generate_filename (chosen broken_renderer_env None) None "ico"
              empty_world = Ok f w1
            ∧ generate_temporary_local_filename (chosen broken_renderer_env None)
                None "ico" w1 = Raise e w')
       ∨ (∃ w2, _generate_text_content broken_renderer_env 10 None (Some "hi") w2
                = Raise e w'
                ∧ disk w' = disk empty_world ∧ buckets w' = buckets empty_world)
       ∨ (∃ text tmp,
            imgkit_from_string broken_renderer_env
              ("<pre>" +:+ text +:+ "</pre>") tmp = inl e
            ∧ disk w' = disk empty_world ∧ buckets w' = buckets empty_world)
       ∨ (∃ f tmp data w4,
            write_bytes (chosen broken_renderer_env None) f data w4 = Raise e w'
            ∧ disk w4 !! tmp = Some data)
       ∨ (e = FileNotFoundError
          ∧ ∃ f w1 w2,
              generate_filename (chosen broken_renderer_env None) None "ico"
                empty_world = Ok f w1
              ∧ generate_temporary_local_filename (chosen broken_renderer_env None)
                  None "ico" w1 = Ok f w2)).
Proof.
  eexists _, _. split; [reflexivity |].
  eapply (html_image_providers_raise broken_renderer_env None on_disk None 10
            None (Some "hi") ∅ empty_world).
  - apply FileSystemStorage_spec.
  - left. split; reflexivity.
Defined.

(** X3: when the backend's write fails, [ico_file] and [svg_file] raise that
    error from the very world the write left: the final os.remove is not
    reached, so with a write that leaves the disk alone the rendered
    temporary file stays behind. *)
Theorem storage_failure_keeps_temporary_file (E : Env) storage prefix n wrap
    content kwargs (w : World) (ext : string) f w1 t w2 text w3 data e w5 :
  generate_filename (chosen E storage) prefix ext w = Ok f w1 →
  generate_temporary_local_filename (chosen E storage) prefix ext w1 = Ok t w2 →
  _generate_text_content E n wrap content w2 = Ok text w3 →
  imgkit_from_string E ("<pre>" +:+ text +:+ "</pre>") t = inr data →
  write_bytes (chosen E storage) f data (set_disk (insert t data) w3)
  = Raise e w5 →
  (ext = ico_extension →
   ico_file E storage prefix n wrap content kwargs w = Raise e w5)
  ∧ (ext = svg_extension →
     svg_file E storage prefix n wrap content kwargs w = Raise e w5)
  ∧ (disk w5 = disk (set_disk (insert t data) w3) → disk w5 !! t = Some data).
Proof.
  intros Hf Ht Hx Hi Hw.
  assert (html_image_file E ext storage prefix n wrap content w = Raise e w5) as H.
  { unfold html_image_file, bind. fold (chosen E storage).
    rewrite Hf, Ht, Hx. unfold imgkit_render, bind. rewrite Hi. simpl.
    unfold file_write, open_rb. simpl. rewrite lookup_insert_eq.
    by rewrite Hw. }
  split_and!.
  - intros ->. by rewrite ico_file_body.
  - intros ->. by rewrite svg_file_body.
  - intros ->. simpl. apply lookup_insert_eq.
Qed.

Lemma storage_failure_keeps_temporary_file_witness :
  ∃ w5,
    ico_file sample_env (Some read_only_storage) None 10 None (Some "hi") ∅
      empty_world = Raise (LibError "PermissionError") w5
    ∧ disk w5 !! "/tmp/tmp1.ico"
      = Some (String.list_byte_of_string "<pre>hi</pre>").
Proof.
  eexists.
  destruct (storage_failure_keeps_temporary_file sample_env
              (Some read_only_storage) None 10 None (Some "hi") ∅ empty_world
              "ico" "/srv/media/tmp0.ico" (set_tmp_seed 1 empty_world)
              "/tmp/tmp1.ico" (set_tmp_seed 2 empty_world) "hi"
              (set_faker_seed 1 (set_tmp_seed 2 empty_world))
              (String.list_byte_of_string "<pre>hi</pre>")
              (LibError "PermissionError")
              (set_disk (insert "/tmp/tmp1.ico"
                           (String.list_byte_of_string "<pre>hi</pre>"))
                 (set_faker_seed 1 (set_tmp_seed 2 empty_world))))
    as (Hico & _ & Hdisk); try reflexivity.
  split; [by apply Hico | by apply Hdisk].
Defined.

(** ** [ods_file]: failures and footprint *)

(** X4: [ods_file] opens the file before it exports the dataset.  When the
    content does not load, the call raises the loader's error and no file
    has been created; when the export fails, the call raises the exporter's
    error and leaves an empty file under the generated name. *)
Theorem ods_file_failures (E : Env) root_path rel_path prefix data_columns
    num_rows content kwargs (w : World) file_name w1 :
  _generate_filename E root_path rel_path prefix ods_extension w
  = Ok file_name w1 →
  let used := match content with
              | Some c => c
              | None => (faker_json E (columns_used data_columns) num_rows
                           (faker_seed w1)).1
              end in
  let w2 := match content with
            | Some _ => w1
            | None => set_faker_seed
                        (faker_json E (columns_used data_columns) num_rows
                           (faker_seed w1)).2 w1
            end in
  (∀ e, dataset_load_json E used = inl e →
     ods_file E root_path rel_path prefix data_columns num_rows content kwargs w
     = Raise e w2
     ∧ disk w2 = disk w1)
  ∧ (∀ dataset e,
       dataset_load_json E used = inr dataset →
       dataset_export_ods E dataset = inl e →
       ods_file E root_path rel_path prefix data_columns num_rows content kwargs w
       = Raise e (set_disk (insert file_name []) w2)
       ∧ disk (set_disk (insert file_name []) w2) !! file_name = Some []).
Proof.
  intros Hname used w2.
  pose proof (ods_content_step E data_columns num_rows content w1) as Hstep.
  fold used w2 in Hstep.
  assert (disk w2 = disk w1) as Hd by (subst w2; by destruct content).
  split.
  - intros e Hload. split; [| done].
    unfold ods_file, bind. rewrite Hname.
    fold (columns_used data_columns). rewrite Hstep. by rewrite Hload.
  - intros dataset e Hload Hexp. split; [| simpl; apply lookup_insert_eq].
    unfold ods_file, bind. rewrite Hname.
    fold (columns_used data_columns). rewrite Hstep. rewrite Hload. simpl.
    by rewrite Hexp.
Qed.

Lemma ods_file_failures_witness :
  (∀ e, dataset_load_json picky_dataset_env "" = inl e →
     ods_file picky_dataset_env None "tmp" None None 10 (Some "") ∅ empty_world
     = Raise e (set_tmp_seed 1 empty_world)
     ∧ disk (set_tmp_seed 1 empty_world) = disk (set_tmp_seed 1 empty_world))
  ∧ (∀ dataset e,
       dataset_load_json picky_dataset_env "" = inr dataset →
       dataset_export_ods picky_dataset_env dataset = inl e →
       ods_file picky_dataset_env None "tmp" None None 10 (Some "") ∅ empty_world
       = Raise e (set_disk (insert "/tmp/tmp/tmp0.ods" [])
                    (set_tmp_seed 1 empty_world))
       ∧ disk (set_disk (insert "/tmp/tmp/tmp0.ods" [])
                 (set_tmp_seed 1 empty_world)) !! "/tmp/tmp/tmp0.ods"
         = Some []).
Proof.
  apply (ods_file_failures picky_dataset_env None "tmp" None None 10 (Some "")
           ∅ empty_world "/tmp/tmp/tmp0.ods" (set_tmp_seed 1 empty_world)).
  reflexivity.
Defined.

Example ods_file_export_failure_leaves_empty_file :
  ∃ w', ods_file picky_dataset_env None "tmp" None None 10 (Some "[]") ∅
          empty_world = Raise (LibError "odf") w'
        ∧ disk w' !! "/tmp/tmp/tmp0.ods" = Some [].
Proof. eexists. split; reflexivity. Qed.

(** X5: the footprint of a successful [ods_file] call: past the file-name
    helper it changes the local disk at the generated name only, leaves the
    object store and the temporary-name sequence alone, and advances the
    Faker's random state exactly when it has to draw the content (not at
    all when content is given). *)
Theorem ods_file_footprint (E : Env) root_path rel_path prefix data_columns
    num_rows content kwargs (w : World) a w' :
  ods_file E root_path rel_path prefix data_columns num_rows content kwargs w
  = Ok a w' →
  ∃ file_name w1,
    _generate_filename E root_path rel_path prefix ods_extension w
    = Ok file_name w1
    ∧ (∀ p, p ≠ file_name → disk w' !! p = disk w1 !! p)
    ∧ buckets w' = buckets w1
    ∧ tmp_seed w' = tmp_seed w1
    ∧ faker_seed w'
      = match content with
        | Some _ => faker_seed w1
        | None => (faker_json E (columns_used data_columns) num_rows
                     (faker_seed w1)).2
        end.
Proof.
  intros H. unfold ods_file in H.
  apply bind_Ok in H as (file_name & w1 & Hname & H).
  apply bind_Ok in H as (used & w2 & Hused & H).
  apply bind_Ok in H as (ds & w3 & Hload & H).
  apply bind_Ok in H as (u4 & w4 & Hopen & H).
  apply bind_Ok in H as (ex & w5 & Hexp & H).
  apply bind_Ok in H as (u6 & w6 & Hwr & H).
  injection H as _ <-.
  apply lift_Ok in Hload as [_ ->].
  apply lift_Ok in Hexp as [_ ->].
  injection Hwr as _ <-. injection Hopen as _ <-.
  fold (columns_used data_columns) in Hused.
  rewrite ods_content_step in Hused. injection Hused as _ <-.
  exists file_name, w1. split; [done |].
  destruct content as [c|]; simpl; split_and!; try done;
    intros p Hp; by rewrite !lookup_insert_ne.
Qed.

Lemma ods_file_footprint_witness :
  ∃ a w',
    ods_file sample_env None "tmp" None None 3 None ∅ empty_world = Ok a w'
    ∧ ∃ file_name w1,
        _generate_filename sample_env None "tmp" None ods_extension empty_world
        = Ok file_name w1
        ∧ (∀ p, p ≠ file_name → disk w' !! p = disk w1 !! p)
        ∧ buckets w' = buckets w1
        ∧ tmp_seed w' = tmp_seed w1
        ∧ faker_seed w'
          = (faker_json sample_env (columns_used None) 3 (faker_seed w1)).2.
Proof.
  eexists _, _. split; [reflexivity |].
  eapply (ods_file_footprint sample_env None "tmp" None None 3 None ∅ empty_world).
  reflexivity.
Defined.

(** ** [jpeg_file] and [webp_file] *)

(** X6: [webp_file] takes basename, format_func and raw through its keyword
    arguments and hands the image mixin the very keyword arguments
    [jpeg_file] hands it for the same values; only the extension differs
    (jpg, webp).  In particular raw and the storage reach the mixin as
    given. *)
Theorem webp_file_keywords_as_jpeg_file (E : Env) storage basename prefix n
    wrap content format_func raw (kwargs : Kwargs) :
  ∃ kw : Kwargs,
    jpeg_file E storage basename prefix n wrap content format_func raw kwargs
    = _image_file E "jpg" kw
    ∧ webp_file E storage prefix n wrap content
        (<["basename" := opt_str basename]>
         (<["format_func" := format_func]>
         (<["raw" := PyBool raw]> kwargs)))
      = _image_file E "webp" kw
    ∧ kw !! "raw" = Some (PyBool raw)
    ∧ kw !! "storage" = Some (opt_storage storage).
Proof.
  eexists. split; [reflexivity |]. split_and!.
  - unfold webp_file. f_equal. apply map_eq. intros k.
    rewrite !lookup_insert.
    repeat (case_decide; subst; try done).
  - repeat (rewrite lookup_insert_ne by discriminate). apply lookup_insert_eq.
  - apply lookup_insert_eq.
Qed.

(** ** reportlab snippets *)

Section SnippetFacts.
Context (L : Reportlab).

Lemma draw_row_length cols seed : length (draw_row L cols seed).1 = cols.
Proof.
  revert seed. induction cols as [|c IH]; intros seed; simpl; [done |].
  destruct (faker_word L seed) as [x s1]. specialize (IH s1).
  destruct (draw_row L c s1) as [xs s2]. simpl in *. by rewrite IH.
Qed.

Lemma draw_rows_shape rows cols seed :
  length (draw_rows L rows cols seed).1 = rows
  ∧ Forall (λ row, length row = cols) (draw_rows L rows cols seed).1.
Proof.
  revert seed. induction rows as [|r IH]; intros seed; simpl; [by split |].
  pose proof (draw_row_length cols seed) as Hrow.
  destruct (draw_row L cols seed) as [row s1]. specialize (IH s1).
  destruct (draw_rows L r cols s1) as [rs s2]. simpl in *.
  destruct IH as [Hlen Hall]. split; [by rewrite Hlen | by constructor].
Qed.

Lemma draw_row_add a b seed :
  draw_row L (a + b) seed
  = ((draw_row L a seed).1 ++ (draw_row L b (draw_row L a seed).2).1,
     (draw_row L b (draw_row L a seed).2).2)%list.
Proof.
  revert seed. induction a as [|a IH]; intros seed; simpl.
  - by destruct (draw_row L b seed).
  - destruct (faker_word L seed) as [x s1]. rewrite IH.
    by destruct (draw_row L a s1) as [xs s2].
Qed.

(** The rows drawn for a table, read row by row, are one run of words. *)
Lemma draw_rows_concat rows cols seed :
  (concat (draw_rows L rows cols seed).1, (draw_rows L rows cols seed).2)
  = draw_row L (rows * cols) seed.
Proof.
  revert seed. induction rows as [|r IH]; intros seed; simpl; [done |].
  rewrite draw_row_add.
  destruct (draw_row L cols seed) as [row s1]. simpl.
  specialize (IH s1). destruct (draw_rows L r cols s1) as [rs s2]. simpl in *.
  by rewrite <- IH.
Qed.

Lemma add_table_SOk generator data counter (kwargs : Kwargs) d w d' w' :
  add_table L generator data counter kwargs d w = SOk d' w' →
  ∃ rows cols,
    range_arg (default (PyInt 3) (kwargs !! "rows")) = Some rows
    ∧ range_arg (default (PyInt 4) (kwargs !! "cols")) = Some cols
    ∧ d' = story_append
             (Table (map header (seq 0 cols)
                     :: (draw_rows L rows cols (faker_seed w)).1)
                (table_style (default (PyStr "CENTER") (kwargs !! "align"))
                   (default (PyStr "Helvetica-Bold") (kwargs !! "font_name"))
                   (default (PyInt 14) (kwargs !! "font_size")))) d
    ∧ w' = set_faker_seed (draw_rows L rows cols (faker_seed w)).2 w.
Proof.
  unfold add_table.
  destruct (range_arg (default (PyInt 4) (kwargs !! "cols"))) as [c|]; [| done].
  destruct (range_arg (default (PyInt 3) (kwargs !! "rows"))) as [r|]; [| done].
  destruct (draw_rows L r c (faker_seed w)) as [body seed] eqn:Hdraw.
  destruct (Table_init L _); [done |].
  intros [= <- <-]. exists r, c. by rewrite Hdraw.
Qed.

(** X7: a successful [add_table] appends one table to the story and leaves
    the flowables already there, the registered fonts and all files alone.
    The table has a header row Header 1 ... Header cols followed by [rows]
    rows, every row [cols] cells wide; rows and cols default to 3 and 4, the
    style to Helvetica-Bold, 14 and CENTER. *)
Theorem add_table_shape generator data counter (kwargs : Kwargs) d w d' w' :
  add_table L generator data counter kwargs d w = SOk d' w' →
  ∃ rows cols body,
    range_arg (default (PyInt 3) (kwargs !! "rows")) = Some rows
    ∧ range_arg (default (PyInt 4) (kwargs !! "cols")) = Some cols
    ∧ story d'
      = (story d
         ++ [Table (map header (seq 0 cols) :: body)
               (table_style (default (PyStr "CENTER") (kwargs !! "align"))
                  (default (PyStr "Helvetica-Bold") (kwargs !! "font_name"))
                  (default (PyInt 14) (kwargs !! "font_size")))])%list
    ∧ length body = rows
    ∧ Forall (λ row, length row = cols) (map header (seq 0 cols) :: body)
    ∧ registered_fonts d' = registered_fonts d
    ∧ disk w' = disk w ∧ buckets w' = buckets w ∧ tmp_seed w' = tmp_seed w.
Proof.
  intros H. apply add_table_SOk in H as (r & c & Hr & Hc & -> & ->).
  destruct (draw_rows_shape r c (faker_seed w)) as [Hlen Hall].
  exists r, c, (draw_rows L r c (faker_seed w)).1.
  split_and!; try done.
  constructor; [| done]. by rewrite length_map, length_seq.
Qed.

(** X8: the cells of the table body, read row by row, are the next
    rows * cols words of the Faker, and the call leaves the random state
    where that run of words leaves it: not one word more is drawn. *)
Theorem add_table_words generator data counter (kwargs : Kwargs) d w d' w' :
  add_table L generator data counter kwargs d w = SOk d' w' →
  ∃ rows cols body style,
    range_arg (default (PyInt 3) (kwargs !! "rows")) = Some rows
    ∧ range_arg (default (PyInt 4) (kwargs !! "cols")) = Some cols
    ∧ last (story d') = Some (Table (map header (seq 0 cols) :: body) style)
    ∧ concat body = (draw_row L (rows * cols) (faker_seed w)).1
    ∧ faker_seed w' = (draw_row L (rows * cols) (faker_seed w)).2.
Proof.
  intros H. apply add_table_SOk in H as (r & c & Hr & Hc & -> & ->).
  pose proof (draw_rows_concat r c (faker_seed w)) as Hcat.
  exists r, c, (draw_rows L r c (faker_seed w)).1. eexists.
  split_and!; try done.
  - simpl. apply last_snoc.
  - by rewrite <- Hcat.
  - simpl. by rewrite <- Hcat.
Qed.


End SnippetFacts.

Lemma add_table_shape_witness :
  ∃ d' w',
    add_table sample_reportlab sample_generator ∅ 0 two_rows
      empty_document empty_world = SOk d' w'
    ∧ ∃ rows cols body,
        range_arg (default (PyInt 3) (two_rows !! "rows")) = Some rows
        ∧ range_arg (default (PyInt 4)
                       (two_rows !! "cols")) = Some cols
        ∧ story d'
          = (story empty_document
             ++ [Table (map header (seq 0 cols) :: body)
                   (table_style
                      (default (PyStr "CENTER")
                         (two_rows !! "align"))
                      (default (PyStr "Helvetica-Bold")
                         (two_rows !! "font_name"))
                      (default (PyInt 14)
                         (two_rows !! "font_size")))])%list
        ∧ length body = rows
        ∧ Forall (λ row, length row = cols) (map header (seq 0 cols) :: body)
        ∧ registered_fonts d' = registered_fonts empty_document
        ∧ disk w' = disk empty_world ∧ buckets w' = buckets empty_world
        ∧ tmp_seed w' = tmp_seed empty_world.
Proof.
  eexists _, _. split; [reflexivity |].
  eapply (add_table_shape sample_reportlab sample_generator ∅ 0
            two_rows empty_document empty_world).
  reflexivity.
Defined.

Lemma add_table_words_witness :
  ∃ d' w',
    add_table sample_reportlab sample_generator ∅ 0 ∅ empty_document empty_world
    = SOk d' w'
    ∧ ∃ rows cols body style,
        range_arg (default (PyInt 3) ((∅ : Kwargs) !! "rows")) = Some rows
        ∧ range_arg (default (PyInt 4) ((∅ : Kwargs) !! "cols")) = Some cols
        ∧ last (story d') = Some (Table (map header (seq 0 cols) :: body) style)
        ∧ concat body
          = (draw_row sample_reportlab (rows * cols) (faker_seed empty_world)).1
        ∧ faker_seed w'
          = (draw_row sample_reportlab (rows * cols) (faker_seed empty_world)).2.
Proof.
  eexists _, _. split; [reflexivity |].
  eapply (add_table_words sample_reportlab sample_generator ∅ 0 ∅
            empty_document empty_world).
  reflexivity.
Defined.

Section SnippetCalls.
Context (E : Env) (L : Reportlab).

(** X10: [add_picture] asks the JPEG provider for raw bytes: the image mixin
    is called for the jpg extension with raw=True, no storage and no
    content, whatever keyword arguments the snippet got.  Bytes coming back
    are resized to 400 by 400 and appended to the story as one image; a path
    coming back instead raises TypeError, and every failure (the provider's,
    PIL's, the TypeError) leaves story and fonts as they were. *)
Theorem add_picture_outcome generator data counter (kwargs : Kwargs) d w :
  ∃ kw : Kwargs,
    kw !! "raw" = Some (PyBool true)
    ∧ kw !! "storage" = Some PyNone
    ∧ kw !! "content" = Some PyNone
    ∧ add_picture E L generator data counter kwargs d w
      = match _image_file E "jpg" kw w with
        | Raise e w' => SRaise (Propagated e) d w'
        | Ok (StringValue _ _) w' => SRaise TypeError d w'
        | Ok (BytesValue raw _) w' =>
            match pil_resize_jpeg L raw 400 400 with
            | inl e => SRaise (Propagated e) d w'
            | inr output => SOk (story_append (Image output 400 400) d) w'
            end
        end
    ∧ (∀ e d' w',
         add_picture E L generator data counter kwargs d w = SRaise e d' w' →
         d' = d).
Proof.
  eexists. split_and!; [| | | reflexivity |].
  - repeat (rewrite lookup_insert_ne by discriminate). apply lookup_insert_eq.
  - apply lookup_insert_eq.
  - repeat (rewrite lookup_insert_ne by discriminate). apply lookup_insert_eq.
  - intros e d' w'. unfold add_picture.
    destruct (jpeg_file _ _ _ _ _ _ _ _ _ _ w) as [[p dt|raw dt] w1|e1 w1].
    + by intros [= _ <- _].
    + destruct (pil_resize_jpeg L raw 400 400); [| done]. by intros [= _ <- _].
    + by intros [= _ <- _].
Qed.

(** X11: [add_paragraph] registers the generator's font before it draws any
    text.  If the font cannot be loaded the call raises that error with
    nothing changed and no text drawn; otherwise the font is registered under
    the generator's font name, one text of at most 5000 characters is asked
    of the Faker, and on success one paragraph with that text and that font
    name is appended (if reportlab refuses the text, the font stays
    registered and the story is unchanged). *)
Theorem add_paragraph_outcome generator data counter (kwargs : Kwargs) d w :
  (∀ e, TTFont L (font_name generator) (font_path generator) = Some e →
     add_paragraph L generator data counter kwargs d w
     = SRaise (Propagated e) d w)
  ∧ (TTFont L (font_name generator) (font_path generator) = None →
     ∃ r,
       add_paragraph L generator data counter kwargs d w = r
       ∧ registered_fonts (snippet_doc r) !! font_name generator
         = Some (font_path generator)
       ∧ (∀ name, name ≠ font_name generator →
            registered_fonts (snippet_doc r) !! name = registered_fonts d !! name)
       ∧ faker_seed (snippet_world r) = (faker_text L 5000 (faker_seed w)).2
       ∧ disk (snippet_world r) = disk w
       ∧ match r with
         | SOk d' _ =>
             story d'
             = (story d ++ [Paragraph (faker_text L 5000 (faker_seed w)).1
                              (font_name generator)])%list
         | SRaise e d' _ =>
             story d' = story d
             ∧ ∃ e0, e = Propagated e0
                     ∧ Paragraph_init L (faker_text L 5000 (faker_seed w)).1
                       = Some e0
         end).
Proof.
  unfold add_paragraph. split.
  - intros e ->. done.
  - intros ->. eexists. split; [reflexivity |].
    destruct (faker_text L 5000 (faker_seed w)) as [content seed]. simpl.
    destruct (Paragraph_init L content) as [e|] eqn:Hp; simpl.
    + split_and!; try done; [apply lookup_insert_eq | | by exists e].
      intros name Hne. by apply lookup_insert_ne.
    + split_and!; try done; [apply lookup_insert_eq |].
      intros name Hne. by apply lookup_insert_ne.
Qed.

Lemma call_snippet_story generator data counter s d w :
  match call_snippet E L generator data counter s d w with
  | SOk d' _ =>
      (∃ x, story d' = (story d ++ [x])%list)
      ∧ dom (registered_fonts d) ⊆ dom (registered_fonts d')
  | SRaise _ d' _ =>
      story d' = story d ∧ dom (registered_fonts d) ⊆ dom (registered_fonts d')
  end.
Proof.
  destruct s as [kw|kw|kw|kw]; simpl.
  - unfold add_table.
    destruct (range_arg (default (PyInt 4) (kw !! "cols"))); [| done].
    destruct (range_arg (default (PyInt 3) (kw !! "rows"))); [| done].
    destruct (draw_rows L _ _ _) as [body seed].
    destruct (Table_init L _); [done |]. split; [| done]. by eexists.
  - unfold add_picture.
    destruct (jpeg_file _ _ _ _ _ _ _ _ _ _ w) as [[p dt|raw dt] w1|e1 w1];
      try done.
    destruct (pil_resize_jpeg L raw 400 400); [done |].
    split; [| done]. by eexists.
  - split; [| done]. by eexists.
  - unfold add_paragraph.
    destruct (TTFont L _ _); [done |].
    destruct (faker_text L 5000 (faker_seed w)) as [content seed].
    destruct (Paragraph_init L content); simpl.
    + split; [done |]. rewrite dom_insert_L. set_solver.
    + split; [by eexists |]. rewrite dom_insert_L. set_solver.
Qed.

(** X12: snippets only ever append.  Called one after the other, each
    successful snippet adds exactly one flowable at the end of the story and
    a failing one adds none: the story after the calls is the story before
    followed by one flowable per call that succeeded (all of them when the
    run succeeds, fewer than the calls when it stops at an exception), and
    no registered font is ever dropped. *)
Theorem call_snippets_append generator data ss : ∀ counter d w,
  ∃ added,
    story (snippet_doc (call_snippets E L generator data counter ss d w))
    = (story d ++ added)%list
    ∧ dom (registered_fonts d)
      ⊆ dom (registered_fonts
               (snippet_doc (call_snippets E L generator data counter ss d w)))
    ∧ match call_snippets E L generator data counter ss d w with
      | SOk _ _ => length added = length ss
      | SRaise _ _ _ => length added < length ss
      end.
Proof.
  induction ss as [|s ss IH]; intros counter d w; simpl.
  - exists []. split_and!; [by rewrite app_nil_r | done | done].
  - pose proof (call_snippet_story generator data counter s d w) as Hs.
    destruct (call_snippet E L generator data counter s d w) as [d1 w1|e d1 w1].
    + destruct Hs as [[x Hx] Hf].
      destruct (IH (S counter) d1 w1) as (added & Hst & Hfonts & Hlen).
      exists (x :: added). split_and!.
      * rewrite Hst, Hx. by rewrite <- app_assoc.
      * set_solver.
      * destruct (call_snippets _ _ _ _ _ _ _ _); simpl; lia.
    + destruct Hs as [Hx Hf]. exists []. simpl.
      split_and!; [by rewrite app_nil_r | done | lia].
Qed.

End SnippetCalls.

Section SnippetFootprint.
Context (E : Env) (L : Reportlab).

Lemma call_snippet_files generator data counter s d w :
  is_picture s = false →
  let w' := match call_snippet E L generator data counter s d w with
            | SOk _ w' => w'
            | SRaise _ _ w' => w'
            end in
  disk w' = disk w ∧ buckets w' = buckets w ∧ tmp_seed w' = tmp_seed w.
Proof.
  destruct s as [kw|kw|kw|kw]; simpl; [| done | done |]; intros _.
  - unfold add_table.
    destruct (range_arg (default (PyInt 4) (kw !! "cols"))); [| done].
    destruct (range_arg (default (PyInt 3) (kw !! "rows"))); [| done].
    destruct (draw_rows L _ _ _) as [body seed].
    by destruct (Table_init L _).
  - unfold add_paragraph.
    destruct (TTFont L _ _); [done |].
    destruct (faker_text L 5000 (faker_seed w)) as [content seed].
    by destruct (Paragraph_init L content).
Qed.

(** X13: tables, page breaks and paragraphs never touch a file: a run of
    snippets without [add_picture], whether it succeeds or stops at an
    exception, leaves the local disk, the object store and the
    temporary-name sequence exactly as they were. *)
Theorem call_snippets_files generator data ss : ∀ counter d w,
  forallb (λ s, negb (is_picture s)) ss = true →
  disk (snippet_world (call_snippets E L generator data counter ss d w)) = disk w
  ∧ buckets (snippet_world (call_snippets E L generator data counter ss d w))
    = buckets w
  ∧ tmp_seed (snippet_world (call_snippets E L generator data counter ss d w))
    = tmp_seed w.
Proof.
  induction ss as [|s ss IH]; intros counter d w Hall; simpl; [done |].
  simpl in Hall. apply andb_prop in Hall as [Hs Hall].
  apply negb_true_iff in Hs.
  pose proof (call_snippet_files generator data counter s d w Hs) as Hf.
  destruct (call_snippet E L generator data counter s d w) as [d1 w1|e d1 w1];
    simpl in *; [| done].
  destruct (IH (S counter) d1 w1 Hall) as (Hd & Hb & Ht).
  destruct Hf as (Hd1 & Hb1 & Ht1). split_and!; congruence.
Qed.

End SnippetFootprint.

Lemma call_snippets_files_witness :
  disk (snippet_world
          (call_snippets sample_env sample_reportlab sample_generator ∅ 0
             [snippet_add_table two_rows; snippet_add_page_break ∅;
              snippet_add_paragraph ∅] empty_document empty_world))
  = disk empty_world
  ∧ buckets (snippet_world
               (call_snippets sample_env sample_reportlab sample_generator ∅ 0
                  [snippet_add_table two_rows; snippet_add_page_break ∅;
                   snippet_add_paragraph ∅] empty_document empty_world))
    = buckets empty_world
  ∧ tmp_seed (snippet_world
                (call_snippets sample_env sample_reportlab sample_generator ∅ 0
                   [snippet_add_table two_rows; snippet_add_page_break ∅;
                    snippet_add_paragraph ∅] empty_document empty_world))
    = tmp_seed empty_world.
Proof.
  apply (call_snippets_files sample_env sample_reportlab sample_generator ∅
           [snippet_add_table two_rows; snippet_add_page_break ∅;
            snippet_add_paragraph ∅] 0 empty_document empty_world).
  reflexivity.
Defined.

(** ** The provider tests *)

(** X14: the assertion of test_faker and test_standalone_providers holds for
    the [ico_file] and [svg_file] rows in each storage column (None, False,
    a storage): when the call returns, (storage or FS_STORAGE).exists(_file)
    is true, the backend the test asks being the one the provider wrote
    through.  The one way out is a backend that, asked in this call for the
    file name and then for the temporary name, hands out the same name
    twice.  And the test does reach its assertion, which then holds, when
    the steps of the provider succeed with two different names. *)
Theorem provider_tests_hold (E : Env) stored (storage : StorageParam) prefix n
    wrap content kwargs (w : World) (ext : string)
    (provider : option BaseStorage → option string → nat → option nat →
                option string → Kwargs → M Artifact) :
  StorageSpec (default (FS_STORAGE E) (row_storage E storage)) stored →
  (ext = "ico" ∧ provider = ico_file E)
  ∨ (ext = "svg" ∧ provider = svg_file E) →
  (∀ b w',
     test_standalone_providers E
       (λ st, provider st prefix n wrap content kwargs) storage w = Ok b w' →
     b = true
     ∨ ∃ filename w1 w2,
         generate_filename (default (FS_STORAGE E) (row_storage E storage))
           prefix ext w = Ok filename w1
         ∧ generate_temporary_local_filename
             (default (FS_STORAGE E) (row_storage E storage)) prefix ext w1
           = Ok filename w2)
  ∧ (∀ filename w1 tmp w2 text w3 data u w5,
       generate_filename (default (FS_STORAGE E) (row_storage E storage))
         prefix ext w = Ok filename w1 →
       generate_temporary_local_filename
         (default (FS_STORAGE E) (row_storage E storage)) prefix ext w1
       = Ok tmp w2 →
       _generate_text_content E n wrap content w2 = Ok text w3 →
       imgkit_from_string E ("<pre>" +:+ text +:+ "</pre>") tmp = inr data →
       write_bytes (default (FS_STORAGE E) (row_storage E storage)) filename
         data (set_disk (insert tmp data) w3) = Ok u w5 →
       tmp ≠ filename →
       test_standalone_providers E
         (λ st, provider st prefix n wrap content kwargs) storage w
       = Ok true (set_disk (delete tmp) w5)).
Proof.
  intros HS Hp.
  assert (chosen E (row_storage E storage)
          = default (FS_STORAGE E) (row_storage E storage)) as Hs
    by (by destruct storage).
  rewrite <- Hs in *.
  assert (provider (row_storage E storage) prefix n wrap content kwargs
          = html_image_file E ext (row_storage E storage) prefix n wrap content)
    as Hbody.
  { destruct Hp as [[-> ->] | [-> ->]];
      [apply ico_file_body | apply svg_file_body]. }
  split.
  - intros b w' H. unfold test_standalone_providers in H.
    rewrite Hbody in H.
    apply bind_Ok in H as (a & v & Hcall & Hres).
    destruct (html_image_file_steps E _ _ _ _ _ _ _ _ _ _ HS Hcall)
      as (f & v1 & t & v2 & tx & v3 & dt & Hf & Ht & _ & _ & -> & _ & Hst).
    rewrite <- Hs in Hres. injection Hres as <- <-.
    destruct (decide (t = f)) as [->|Hne].
    + right. by exists f, v1, v2.
    + left. by apply Hst.
  - intros f w1 t w2 text w3 data u w5 Hf Ht Hx Hi Hw Hne.
    pose proof (html_image_file_runs E _ _ _ _ _ _ _ _ _ _ _ _ _ _ _ _ _
                  HS Hf Ht Hx Hi Hw Hne) as Hcall.
    destruct (html_image_file_steps E _ _ _ _ _ _ _ _ _ _ HS Hcall)
      as (f' & v1 & t' & v2 & tx & v3 & dt & Hf' & Ht' & _ & _ & _ & _ & Hst).
    rewrite Hf in Hf'. injection Hf' as <- <-.
    rewrite Ht in Ht'. injection Ht' as <- <-.
    unfold test_standalone_providers, bind. rewrite Hbody, Hcall.
    rewrite <- Hs. by rewrite (proj2 (Hst Hne)).
Qed.

Lemma provider_tests_hold_witness :
  ∃ w',
    test_standalone_providers sample_env
      (λ st, ico_file sample_env st None 10 None None ∅) param_False empty_world
    = Ok true w'
    ∧ disk w' !! "/tmp/tmp1.ico" = None
    ∧ disk w' !! "/tmp/tmp/tmp0.ico"
      = Some (String.list_byte_of_string "<pre>text0</pre>").
Proof.
  destruct (provider_tests_hold sample_env on_disk param_False None 10 None
              None ∅ empty_world "ico" (ico_file sample_env)
              (FileSystemStorage_spec "/tmp" "/tmp" "tmp")
              (or_introl (conj eq_refl eq_refl))) as [_ Hruns].
  eexists. split.
  - apply (Hruns "/tmp/tmp/tmp0.ico" (set_tmp_seed 1 empty_world)
             "/tmp/tmp1.ico" (set_tmp_seed 2 empty_world) "text0"
             (set_faker_seed 1 (set_tmp_seed 2 empty_world))
             (String.list_byte_of_string "<pre>text0</pre>") tt
             (set_disk (insert "/tmp/tmp/tmp0.ico"
                          (String.list_byte_of_string "<pre>text0</pre>"))
                (set_disk (insert "/tmp/tmp1.ico"
                             (String.list_byte_of_string "<pre>text0</pre>"))
                   (set_faker_seed 1 (set_tmp_seed 2 empty_world)))));
      try reflexivity.
    discriminate.
  - split; reflexivity.
Defined.

(** ** The snippets at work *)

Example add_table_cols_as_text :
  add_table sample_reportlab sample_generator ∅ 0 {["cols" := PyStr "4"]}
    empty_document empty_world
  = SRaise TypeError empty_document empty_world.
Proof. reflexivity. Qed.

Example add_table_without_columns :
  add_table sample_reportlab sample_generator ∅ 0 {["cols" := PyInt 0]}
    empty_document empty_world
  = SRaise (Propagated (LibError "ValueError")) empty_document empty_world.
Proof. reflexivity. Qed.

Example add_picture_appends_image :
  story (snippet_doc (add_picture sample_env sample_reportlab sample_generator
                        ∅ 0 ∅ empty_document empty_world))
  = [Image (String.list_byte_of_string "jpg") 400 400].
Proof. reflexivity. Qed.

Example call_snippets_stops_at_the_font :
  ∃ t w,
    call_snippets sample_env sample_reportlab (mkPdfGenerator "Broken" "") ∅ 0
      [snippet_add_page_break ∅; snippet_add_table ∅; snippet_add_paragraph ∅;
       snippet_add_page_break ∅] empty_document empty_world
    = SRaise (Propagated (LibError "TTFError")) (mkDocument [PageBreak; t] ∅) w
    ∧ faker_seed w = 12.
Proof. eexists _, _. split; reflexivity. Qed.
